(** * GongSearchTool: a shallow embedding of [tool.py] of the Gong agent tool

    The module models [GongSearchTool.invoke] together with the helpers it
    calls ([_get_auth_header], [_handle_rate_limit], [_format_datetime]).

    Modelling conventions.
    - A Python [str] is a Rocq [string]; each [ascii] character stands for
      one code point (code points 0..255 only).
    - A value decoded from JSON (a response body, a call record, a config
      entry) is a [json]; a Python dict decoded from JSON is a [JObj] whose
      keys are distinct, kept in insertion order.  JSON numbers are integers.
    - The HTTP transport is a server function: the response to a request
      may depend on the request and on everything that happened before it
      (the log of requests and sleeps).  [time.sleep] is an event in the log.
    - Python exceptions are the [Exn] outcome of the monad; the only loop of
      the source without a bound (cursor pagination) runs on fuel, and
      [NoFuel] is the outcome when the fuel runs out. *)

From Stdlib Require Import String Ascii ZArith List Bool Lia.
Import ListNotations.
Set Warnings "-register-all".
Open Scope string_scope.
Open Scope list_scope.
Open Scope Z_scope.

Local Infix "+++" := String.append (at level 60, right associativity).

Module GongSearchTool.

(** ** JSON values and Python exceptions *)

Inductive json : Type :=
| JNull
| JBool (b : bool)
| JNum (n : Z)
| JStr (s : string)
| JArr (xs : list json)
| JObj (kvs : list (string * json)).

(** The exception classes the source can raise or catch.  [HTTPError] is
    [requests.exceptions.HTTPError]; the other ones are caught by the
    source's [except Exception]. *)
Inductive exc : Type :=
| HTTPError (msg : string)
| ValueError (msg : string)
| TypeError (msg : string)
| AttributeError (msg : string)
| KeyError (msg : string).

(** [str(e)] *)
Definition exc_str (e : exc) : string :=
  match e with
  | HTTPError m | ValueError m | TypeError m | AttributeError m | KeyError m => m
  end.

(** ** Python string helpers *)

Definition digit_char (n : Z) : ascii := ascii_of_nat (Z.to_nat n + 48).

Fixpoint dec_digits (fuel : nat) (n : Z) (acc : string) : string :=
  match fuel with
  | O => acc
  | S f =>
      let acc' := String (digit_char (n mod 10)) acc in
      if n <? 10 then acc' else dec_digits f (n / 10) acc'
  end.

(** [str(n)] for an [int] *)
Definition z_to_dec (z : Z) : string :=
  let fuel := S (Z.to_nat (Z.log2 (Z.abs z))) in
  if z <? 0 then "-" +++ dec_digits fuel (- z) "" else dec_digits fuel z "".

(** [",".join] over strings already known to be strings *)
Fixpoint join_strings (sep : string) (xs : list string) : string :=
  match xs with
  | [] => ""
  | [x] => x
  | x :: rest => x +++ sep +++ join_strings sep rest
  end.

(** [c in s] for a one-character needle [c] *)
Fixpoint has_char (c : ascii) (s : string) : bool :=
  match s with
  | EmptyString => false
  | String c' rest => Ascii.eqb c c' || has_char c rest
  end.

Definition squote : ascii := ascii_of_nat 39.
Definition dquote : ascii := ascii_of_nat 34.
Definition bslash : ascii := ascii_of_nat 92.

(** [str.isprintable()] of one code point below 256: the controls
    0..31 and 127..159, the no-break space 160 and the soft hyphen 173 are
    not printable *)
Definition py_printable (c : ascii) : bool :=
  let n := nat_of_ascii c in
  (Nat.leb 32 n && Nat.leb n 126) || (Nat.leb 161 n && negb (Nat.eqb n 173)).

Definition hex_char (n : nat) : ascii :=
  ascii_of_nat (if Nat.ltb n 10 then 48 + n else 87 + n).

(** one character inside the quotes [q] of a [repr] *)
Definition repr_char (q c : ascii) : string :=
  let n := nat_of_ascii c in
  if Ascii.eqb c q || Ascii.eqb c bslash then String bslash (String c EmptyString)
  else if Nat.eqb n 9 then String bslash "t"
  else if Nat.eqb n 10 then String bslash "n"
  else if Nat.eqb n 13 then String bslash "r"
  else if py_printable c then String c EmptyString
  else String bslash (String "x" (String (hex_char (n / 16)) (String (hex_char (n mod 16)) EmptyString))).

Fixpoint repr_body (q : ascii) (s : string) : string :=
  match s with
  | EmptyString => EmptyString
  | String c rest => repr_char q c +++ repr_body q rest
  end.

(** [repr] of a [str]: single quotes, unless the string holds a single
    quote and no double quote *)
Definition str_repr (s : string) : string :=
  let q := if has_char squote s && negb (has_char dquote s) then dquote else squote in
  String q (repr_body q s +++ String q EmptyString).

(** [repr(v)] of a decoded JSON value *)
Fixpoint py_repr (v : json) : string :=
  match v with
  | JStr s => str_repr s
  | JArr xs => "[" +++ join_strings ", " (map py_repr xs) +++ "]"
  | JObj kvs =>
      "{" +++ join_strings ", "
        (map (fun kv => str_repr (fst kv) +++ ": " +++ py_repr (snd kv)) kvs) +++ "}"
  | JNull => "None"
  | JBool true => "True"
  | JBool false => "False"
  | JNum n => z_to_dec n
  end.

(** [str(v)] of a decoded JSON value (what an f-string prints) *)
Definition py_str (v : json) : string :=
  match v with
  | JStr s => s
  | _ => py_repr v
  end.

(** [s.split(c)[1]] for a one-character separator [c] that occurs in [s]:
    the piece between the first and the second occurrence. *)
Fixpoint after_sep (c : ascii) (s : string) : string :=
  match s with
  | EmptyString => EmptyString
  | String c' rest => if Ascii.eqb c c' then rest else after_sep c rest
  end.

Fixpoint upto_sep (c : ascii) (s : string) : string :=
  match s with
  | EmptyString => EmptyString
  | String c' rest => if Ascii.eqb c c' then EmptyString else String c' (upto_sep c rest)
  end.

Definition split_nth1 (c : ascii) (s : string) : string := upto_sep c (after_sep c s).

(** [s.replace(old, new)]: every non-overlapping occurrence, left to right *)
Fixpoint replace_fuel (fuel : nat) (old new s : string) : string :=
  match fuel with
  | O => s
  | S f =>
      match s with
      | EmptyString => EmptyString
      | String c rest =>
          if String.prefix old s
          then new +++ replace_fuel f old new (substring (String.length old) (String.length s) s)
          else String c (replace_fuel f old new rest)
      end
  end.

Definition str_replace (old new s : string) : string :=
  replace_fuel (S (String.length s)) old new s.

(** ** Python operations on decoded JSON values *)

Fixpoint assoc (k : string) (kvs : list (string * json)) : option json :=
  match kvs with
  | [] => None
  | (k', v) :: rest => if String.eqb k k' then Some v else assoc k rest
  end.

(** assignment [d[k] = v] on a dict: replaces in place or appends *)
Fixpoint assoc_set (k : string) (v : json) (kvs : list (string * json)) : list (string * json) :=
  match kvs with
  | [] => [(k, v)]
  | (k', v') :: rest => if String.eqb k k' then (k', v) :: rest else (k', v') :: assoc_set k v rest
  end.

(** Python truthiness *)
Definition truthy (v : json) : bool :=
  match v with
  | JNull => false
  | JBool b => b
  | JNum n => negb (n =? 0)
  | JStr s => negb (String.eqb s "")
  | JArr xs => negb (Nat.eqb (length xs) 0)
  | JObj kvs => negb (Nat.eqb (length kvs) 0)
  end.

(** [l[:n]] on a list *)
Definition list_slice_to {A} (xs : list A) (n : Z) : list A :=
  if 0 <=? n then firstn (Z.to_nat n) xs
  else firstn (Z.to_nat (Z.of_nat (length xs) + n)) xs.

(** [s[:n]] on a str *)
Definition str_slice_to (s : string) (n : Z) : string :=
  let len := Z.of_nat (String.length s) in
  if 0 <=? n then substring 0 (Z.to_nat n) s
  else substring 0 (Z.to_nat (len + n)) s.

Fixpoint chars (s : string) : list json :=
  match s with
  | EmptyString => []
  | String c rest => JStr (String c EmptyString) :: chars rest
  end.

(** ** Requests, responses and the effect monad *)

(** a header dict, e.g. [{"Authorization": ..., "Content-Type": ...}] *)
Definition headers := list (string * string).

Inductive request : Type :=
| Post (url : string) (payload : json) (hdrs : headers)   (* requests.post(url, json=payload, headers=hdrs) *)
| Get (url : string) (hdrs : headers).                    (* requests.get(url, headers=hdrs) *)

(** [reason] is [response.reason], the reason phrase of the status line
    (['Too Many Requests'] for a 429 from most servers); [retry_after] is the
    [Retry-After] header when present; [body] is what [response.json()]
    decodes, [None] when the body is not JSON. *)
Record response : Type := mk_response {
  status_code : Z;
  reason : string;
  retry_after : option string;
  body : option json
}.

Inductive event : Type :=
| Req (r : request)
| Sleep (secs : Z).

Inductive outcome (A : Type) : Type :=
| Ok (a : A)
| Exn (e : exc)
| NoFuel.
Arguments Ok {A} a.
Arguments Exn {A} e.
Arguments NoFuel {A}.

(** the state is the log of events so far, oldest first *)
Definition M (A : Type) : Type := list event -> outcome A * list event.

Definition ret {A} (a : A) : M A := fun l => (Ok a, l).

Definition bind {A B} (m : M A) (k : A -> M B) : M B :=
  fun l =>
    match m l with
    | (Ok a, l') => k a l'
    | (Exn e, l') => (Exn e, l')
    | (NoFuel, l') => (NoFuel, l')
    end.

Definition raise {A} (e : exc) : M A := fun l => (Exn e, l).

Definition nofuel {A} : M A := fun l => (NoFuel, l).

(** [try: m except e: h(e)] *)
Definition try_catch {A} (m : M A) (h : exc -> M A) : M A :=
  fun l =>
    match m l with
    | (Exn e, l') => h e l'
    | r => r
    end.

Notation "x <- m ;; k" := (bind m (fun x => k))
  (at level 61, m at next level, right associativity).
Notation "m ;;; k" := (bind m (fun _ => k))
  (at level 61, right associativity).

Fixpoint mapM {A B} (f : A -> M B) (xs : list A) : M (list B) :=
  match xs with
  | [] => ret []
  | x :: rest => y <- f x ;; ys <- mapM f rest ;; ret (y :: ys)
  end.

(** [d.get(k, default)]: a non-dict has no attribute [get] *)
Definition dget (d : json) (k : string) (default : json) : M json :=
  match d with
  | JObj kvs => match assoc k kvs with Some v => ret v | None => ret default end
  | _ => raise (AttributeError "object has no attribute 'get'")
  end.

(** [d[k]] *)
Definition dindex (d : json) (k : string) : M json :=
  match d with
  | JObj kvs => match assoc k kvs with Some v => ret v | None => raise (KeyError (str_repr k)) end
  | _ => raise (TypeError "object is not subscriptable")
  end.

(** [k in d] for a str key [k] *)
Definition py_in (k : string) (d : json) : M bool :=
  match d with
  | JObj kvs => ret (match assoc k kvs with Some _ => true | None => false end)
  | JArr xs => ret (existsb (fun v => match v with JStr s => String.eqb s k | _ => false end) xs)
  | JStr s => ret (String.eqb k "" || existsb (fun n => String.prefix k (substring n (String.length s) s))
                                        (seq 0 (String.length s)))
  | _ => raise (TypeError "argument of type is not iterable")
  end.

(** [len(v)] *)
Definition py_len (v : json) : M Z :=
  match v with
  | JArr xs => ret (Z.of_nat (length xs))
  | JStr s => ret (Z.of_nat (String.length s))
  | JObj kvs => ret (Z.of_nat (length kvs))
  | _ => raise (TypeError "object has no len()")
  end.

(** [for x in v]: the elements of a list, the characters of a str, the
    keys of a dict *)
Definition py_iter (v : json) : M (list json) :=
  match v with
  | JArr xs => ret xs
  | JStr s => ret (chars s)
  | JObj kvs => ret (map (fun kv => JStr (fst kv)) kvs)
  | _ => raise (TypeError "object is not iterable")
  end.

(** [l.extend(v)] on a list [l]; only a list has [extend] *)
Definition py_extend (l v : json) : M json :=
  match l with
  | JArr xs => ys <- py_iter v ;; ret (JArr (xs ++ ys))
  | _ => raise (AttributeError "object has no attribute 'extend'")
  end.

(** [v[:n]] *)
Definition py_slice_to (v : json) (n : Z) : M json :=
  match v with
  | JArr xs => ret (JArr (list_slice_to xs n))
  | JStr s => ret (JStr (str_slice_to s n))
  | JObj _ => raise (TypeError "unhashable type: 'slice'")
  | _ => raise (TypeError "object is not subscriptable")
  end.

(** [sep.join(xs)]: every item must be a str *)
Definition py_join (sep : string) (xs : list json) : M string :=
  ss <- mapM (fun v => match v with
                       | JStr s => ret s
                       | _ => raise (TypeError "sequence item: expected str instance")
                       end) xs ;;
  ret (join_strings sep ss).

(** [s.replace(old, new)] on a value that must be a str *)
Definition py_replace (v : json) (old new : string) : M string :=
  match v with
  | JStr s => ret (str_replace old new s)
  | _ => raise (AttributeError "object has no attribute 'replace'")
  end.

(** [time.sleep(secs)] *)
Definition sleep (secs : Z) : M unit :=
  fun l => if secs <? 0 then (Exn (ValueError "sleep length must be non-negative"), l)
           else (Ok tt, l ++ [Sleep secs]).

(** [response.raise_for_status()] of requests: statuses 400..599 raise
    [HTTPError(f'{status_code} Client Error: {reason} for url: {url}')], or
    the same with [Server Error] for 500..599 *)
Definition raise_for_status (r : response) (url : string) : M unit :=
  let st := status_code r in
  if (400 <=? st) && (st <? 500) then
    raise (HTTPError (z_to_dec st +++ " Client Error: " +++ reason r +++ " for url: " +++ url))
  else if (500 <=? st) && (st <? 600) then
    raise (HTTPError (z_to_dec st +++ " Server Error: " +++ reason r +++ " for url: " +++ url))
  else ret tt.

(** [response.json()] *)
Definition response_json (r : response) : M json :=
  match body r with
  | Some v => ret v
  | None => raise (ValueError "Expecting value: line 1 column 1 (char 0)")
  end.

(** [int(s)] of a header value: surrounding whitespace stripped (the
    code points below 256 that [str.isspace] accepts: 9..13, 28..32, 133
    and 160), an optional sign directly followed by decimal digits, with
    single underscores allowed between two digits. *)
Definition is_digit (c : ascii) : bool :=
  (48 <=? Z.of_nat (nat_of_ascii c)) && (Z.of_nat (nat_of_ascii c) <=? 57).
Definition digit_val (c : ascii) : Z := Z.of_nat (nat_of_ascii c) - 48.
Definition is_blank (c : ascii) : bool :=
  existsb (fun n => Nat.eqb (nat_of_ascii c) n) [32; 9; 10; 11; 12; 13; 28; 29; 30; 31; 133; 160]%nat.

Fixpoint strip_left (s : string) : string :=
  match s with
  | String c rest => if is_blank c then strip_left rest else s
  | EmptyString => EmptyString
  end.

Definition strip (s : string) : string :=
  let rev_str := fix rev_str (s acc : string) : string :=
    match s with EmptyString => acc | String c rest => rev_str rest (String c acc) end in
  rev_str (strip_left (rev_str (strip_left s) EmptyString)) EmptyString.

(** the digits after a first digit: a digit, or an underscore followed by
    a digit, until the end *)
Fixpoint digits_value (s : string) (acc : Z) : option Z :=
  match s with
  | EmptyString => Some acc
  | String c rest =>
      if is_digit c then digits_value rest (10 * acc + digit_val c)
      else if Ascii.eqb c "_" then
        match rest with
        | String d rest' => if is_digit d then digits_value rest' (10 * acc + digit_val d) else None
        | EmptyString => None
        end
      else None
  end.

(** a run of digits: it must start with a digit *)
Definition py_digits (s : string) : option Z :=
  match s with
  | String c _ => if is_digit c then digits_value s 0 else None
  | EmptyString => None
  end.

Definition py_int (s : string) : option Z :=
  match strip s with
  | String "-" rest => option_map Z.opp (py_digits rest)
  | String "+" rest => py_digits rest
  | t => py_digits t
  end.

(** ** [_format_datetime] *)

Definition char_between (lo hi c : ascii) : bool :=
  (Nat.leb (nat_of_ascii lo) (nat_of_ascii c)) && (Nat.leb (nat_of_ascii c) (nat_of_ascii hi)).

(** one alternative of a regular-expression group: the value it reads and
    the rest of the input *)
Definition alt := string -> option (Z * string).

(** [strptime]'s [%m] group: [1[0-2]|0[1-9]|[1-9]] *)
Definition m_alts : list alt :=
  [ (fun s => match s with
              | String a (String b r) =>
                  if Ascii.eqb a "1" && char_between "0" "2" b then Some (10 + digit_val b, r) else None
              | _ => None end);
    (fun s => match s with
              | String a (String b r) =>
                  if Ascii.eqb a "0" && char_between "1" "9" b then Some (digit_val b, r) else None
              | _ => None end);
    (fun s => match s with
              | String a r => if char_between "1" "9" a then Some (digit_val a, r) else None
              | _ => None end) ].

(** [strptime]'s [%d] group: [3[01]|[12]\d|0[1-9]|[1-9]| [1-9]] *)
Definition d_alts : list alt :=
  [ (fun s => match s with
              | String a (String b r) =>
                  if Ascii.eqb a "3" && char_between "0" "1" b then Some (30 + digit_val b, r) else None
              | _ => None end);
    (fun s => match s with
              | String a (String b r) =>
                  if char_between "1" "2" a && is_digit b then Some (10 * digit_val a + digit_val b, r)
                  else None
              | _ => None end);
    (fun s => match s with
              | String a (String b r) =>
                  if Ascii.eqb a "0" && char_between "1" "9" b then Some (digit_val b, r) else None
              | _ => None end);
    (fun s => match s with
              | String a r => if char_between "1" "9" a then Some (digit_val a, r) else None
              | _ => None end);
    (fun s => match s with
              | String a (String b r) =>
                  if Ascii.eqb a " " && char_between "1" "9" b then Some (digit_val b, r) else None
              | _ => None end) ].

(** backtracking over the alternatives of a group, in order, with the
    continuation [k] for the rest of the pattern *)
Fixpoint first_alt {B} (alts : list alt) (s : string) (k : Z -> string -> option B) : option B :=
  match alts with
  | [] => None
  | a :: rest =>
      match a s with
      | Some (v, r) => match k v r with Some b => Some b | None => first_alt rest s k end
      | None => first_alt rest s k
      end
  end.

Definition is_leap (y : Z) : bool :=
  (y mod 4 =? 0) && (negb (y mod 100 =? 0) || (y mod 400 =? 0)).

Definition days_in_month (y m : Z) : Z :=
  if m =? 2 then (if is_leap y then 29 else 28)
  else if existsb (Z.eqb m) [4; 6; 9; 11] then 30 else 31.

(** the [(%m)-(%d)] part of the pattern *)
Definition parse_md (rest : string) : option (Z * Z * string) :=
  first_alt m_alts rest
    (fun m r => match r with
                | String "-" r' => first_alt d_alts r' (fun d r'' => Some (m, d, r''))
                | _ => None
                end).

(** [datetime.datetime.strptime(s, "%Y-%m-%d")]: the regular expression
    [(\d\d\d\d)-(%m)-(%d)] matched at the start of [s] (first match, no
    end anchor), then "unconverted data remains" when input is left, then
    the calendar check of [datetime.date].  [None] is the [ValueError]. *)
Definition strptime_ymd (s : string) : option (Z * Z * Z) :=
  match s with
  | String y1 (String y2 (String y3 (String y4 (String dash rest)))) =>
      if is_digit y1 && is_digit y2 && is_digit y3 && is_digit y4 && Ascii.eqb dash "-" then
        let y := 1000 * digit_val y1 + 100 * digit_val y2 + 10 * digit_val y3 + digit_val y4 in
        match parse_md rest with
        | Some (m, d, EmptyString) =>
            if (1 <=? y) && (d <=? days_in_month y m) then Some (y, m, d) else None
        | _ => None
        end
      else None
  | _ => None
  end.

Definition pad2 (n : Z) : string :=
  String (digit_char (n / 10)) (String (digit_char (n mod 10)) EmptyString).


(** [date_obj.strftime("%Y-%m-%dT00:00:00Z")] with the C library of Linux
    (glibc): [%Y] is the year with no padding ([5] for the year 5), [%m]
    and [%d] are two digits *)
Definition strftime_iso (y m d : Z) : string :=
  z_to_dec y +++ "-" +++ pad2 m +++ "-" +++ pad2 d +++ "T00:00:00Z".

(** the "already in ISO format" test of [_format_datetime] *)
Definition iso_shaped (s : string) : bool :=
  has_char "T" s && (has_char "Z" s || has_char "+" s || has_char "-" (split_nth1 "T" s)).

(** [_format_datetime(date_str)] for [date_str] a str or [None]; the
    logging of invalid dates has no effect on the result. *)
Definition format_datetime (date_str : option string) : option string :=
  match date_str with
  | None => None
  | Some s =>
      if String.eqb s "" then None
      else if iso_shaped s then Some s
      else match strptime_ymd s with
           | Some (y, m, d) => Some (strftime_iso y m d)
           | None => None
           end
  end.

(** ** [_get_auth_header] *)

(** [str.encode()] (UTF-8) of code points 0..255 *)
Definition utf8_encode (s : string) : list Z :=
  flat_map (fun ch => let c := Z.of_nat (nat_of_ascii ch) in
                      if c <? 128 then [c] else [Z.lor 192 (Z.shiftr c 6); Z.lor 128 (Z.land c 63)])
           (list_ascii_of_string s).

Definition b64_alphabet : string :=
  "ABCDEFGHIJKLMNOPQRSTUVWXYZabcdefghijklmnopqrstuvwxyz0123456789+/".

Definition b64_char (n : Z) : ascii :=
  match String.get (Z.to_nat n) b64_alphabet with Some c => c | None => "=" end.

(** [base64.b64encode(bs).decode()] *)
Fixpoint b64encode (bs : list Z) : string :=
  match bs with
  | b1 :: b2 :: b3 :: rest =>
      let n := Z.lor (Z.shiftl b1 16) (Z.lor (Z.shiftl b2 8) b3) in
      String (b64_char (Z.shiftr n 18)) (String (b64_char (Z.land (Z.shiftr n 12) 63))
        (String (b64_char (Z.land (Z.shiftr n 6) 63)) (String (b64_char (Z.land n 63))
          (b64encode rest))))
  | [b1; b2] =>
      let n := Z.lor (Z.shiftl b1 16) (Z.shiftl b2 8) in
      String (b64_char (Z.shiftr n 18)) (String (b64_char (Z.land (Z.shiftr n 12) 63))
        (String (b64_char (Z.land (Z.shiftr n 6) 63)) "="))
  | [b1] =>
      let n := Z.shiftl b1 16 in
      String (b64_char (Z.shiftr n 18)) (String (b64_char (Z.land (Z.shiftr n 12) 63)) "==")
  | [] => EmptyString
  end.

(** the tool's [self.config]: a dict of configuration values *)
Definition config := list (string * json).

Definition key_in (k : string) (cfg : config) : bool :=
  match assoc k cfg with Some _ => true | None => false end.

(** [cfg[k]] for a key known to be present, [cfg.get(k, default)] *)
Definition cfg_get (cfg : config) (k : string) (default : json) : json :=
  match assoc k cfg with Some v => v | None => default end.

Definition credentials_error : string :=
  "Gong API credentials not properly configured. Please set either 'gong_access_key' and 'gong_access_key_secret' for Basic auth, or 'gong_bearer_token' for OAuth.".

Definition get_auth_header (cfg : config) : exc + headers :=
  if key_in "gong_access_key" cfg && key_in "gong_access_key_secret" cfg then
    let credentials := py_str (cfg_get cfg "gong_access_key" JNull) +++ ":"
                       +++ py_str (cfg_get cfg "gong_access_key_secret" JNull) in
    inr [("Authorization", "Basic " +++ b64encode (utf8_encode credentials))]
  else if key_in "gong_bearer_token" cfg then
    inr [("Authorization", "Bearer " +++ py_str (cfg_get cfg "gong_bearer_token" JNull))]
  else inl (ValueError credentials_error).

(** ** The invocation input and the result envelope *)

(** [input["input"]], with the field types of the tool's input schema; an
    absent field is [None] *)
Record args : Type := mk_args {
  q : option string;
  from_date : option string;
  to_date : option string;
  limit : option Z;
  workspace_id : option string
}.

Definition opt_default {A} (d : A) (o : option A) : A :=
  match o with Some a => a | None => d end.

Definition opt_truthy (o : option string) : bool :=
  match o with Some s => negb (String.eqb s "") | None => false end.

Definition default_base_url : string := "https://us-13359.api.gong.io".

Definition no_transcript : string := "No transcript available".

(** [{"output": [], "error": msg}] *)
Definition error_env (msg : string) : json :=
  JObj [("output", JArr []); ("error", JStr msg)].

(** the final [return] of the [try] block *)
Definition success_env (query : string) (results source_items : list json) : json :=
  JObj [("output", JArr results);
        ("sources", JArr [JObj [("toolCallDescription", JStr ("Searched Gong for: " +++ query));
                                ("items", JArr source_items)]])].

(** the [except] clauses of [invoke] *)
Definition handler (e : exc) : M json :=
  match e with
  | HTTPError _ => ret (error_env ("HTTP error occurred: " +++ exc_str e))
  | _ => ret (error_env ("An error occurred: " +++ exc_str e))
  end.

(** the search payload [{"filter": {...}, "limit": limit}] *)
Definition search_payload (query : string) (from_date to_date : option string) (limit : Z)
    (workspace_id : option string) : json :=
  let date_filter :=
    (if opt_truthy from_date then [("from", JStr (opt_default "" from_date))] else [])
    ++ (if opt_truthy to_date then [("to", JStr (opt_default "" to_date))] else []) in
  let filter :=
    [("keywords", JStr query)]
    ++ (if opt_truthy from_date || opt_truthy to_date then [("dateRange", JObj date_filter)] else [])
    ++ (if opt_truthy workspace_id then [("workspaceId", JStr (opt_default "" workspace_id))] else []) in
  JObj [("filter", JObj filter); ("limit", JNum limit)].

(** [pagination_payload = payload.copy(); pagination_payload["cursor"] = cursor] *)
Definition with_cursor (payload cursor : json) : json :=
  match payload with
  | JObj kvs => JObj (assoc_set "cursor" cursor kvs)
  | _ => payload
  end.

(** [call.get("title", "Untitled Call")] etc.: the pure part of the result
    record; [transcript] is the compiled transcript text *)
Definition snippet_of (transcript : string) : string :=
  if 200 <? Z.of_nat (String.length transcript)
  then substring 0 200 transcript +++ "..." else transcript.

Definition party_names (call : json) : M (list json) :=
  parties <- dget call "parties" (JArr []) ;;
  ps <- py_iter parties ;;
  mapM (fun party => dget party "name" (JStr "Unknown")) ps.

(** [f"{base_url.replace('api.', '')}/call/{call_id}"] *)
Definition call_ui_url (base_url call_id : json) : M string :=
  b <- py_replace base_url "api." "" ;;
  ret (b +++ "/call/" +++ py_str call_id).

(** the [result] dict, with its optional [context] *)
Definition make_result (base_url call call_id : json) (transcript : string) : M json :=
  title <- dget call "title" (JStr "Untitled Call") ;;
  date <- dget call "startTime" (JStr "") ;;
  duration <- dget call "duration" (JNum 0) ;;
  names <- party_names call ;;
  url <- call_ui_url base_url call_id ;;
  let fields := [("callId", call_id); ("title", title); ("date", date); ("duration", duration);
                 ("parties", JArr names); ("snippet", JStr (snippet_of transcript));
                 ("url", JStr url)] in
  has_content <- py_in "content" call ;;
  if has_content then
    content <- dindex call "content" ;;
    ws <- dget content "contextWorkspace" (JObj []) ;;
    name <- dget ws "name" (JStr "") ;;
    ret (JObj (fields ++ [("context", name)]))
  else ret (JObj fields).

(** the [source_item] dict *)
Definition make_source (base_url call call_id : json) : M json :=
  title <- dget call "title" (JStr "Untitled Call") ;;
  url <- call_ui_url base_url call_id ;;
  start <- dget call "startTime" (JStr "") ;;
  duration <- dget call "duration" (JNum 0) ;;
  names <- party_names call ;;
  joined <- py_join ", " names ;;
  ret (JObj [("type", JStr "SIMPLE_DOCUMENT"); ("title", title); ("url", JStr url);
             ("htmlSnippet", JStr ("<b>Date:</b> " +++ py_str start +++ "<br><b>Duration:</b> "
                                   +++ py_str duration +++ " seconds<br><b>Participants:</b> "
                                   +++ joined))]).

(** the loop over [transcript_segments]: ["{speaker}: {text}"] for each
    segment with a non-empty text *)
Fixpoint segment_texts (segs : list json) : M (list string) :=
  match segs with
  | [] => ret []
  | seg :: rest =>
      speaker <- dget seg "speakerName" (JStr "Unknown") ;;
      text <- dget seg "text" (JStr "") ;;
      texts <- segment_texts rest ;;
      if truthy text then ret ((py_str speaker +++ ": " +++ py_str text) :: texts)
      else ret texts
  end.

(** ** [invoke], against a server *)

Section Invoke.

(** the HTTP transport: the response to a request, given the log of what
    happened before it *)
Variable server : list event -> request -> response.

Definition http (r : request) : M response :=
  fun l => (Ok (server l r), l ++ [Req r]).

(** [int(response.headers.get("Retry-After", 1))]; [None] when [int]
    raises *)
Definition header_int (h : option string) : option Z :=
  match h with
  | None => Some 1
  | Some s => py_int s
  end.

(** the message of the [ValueError] of [int(s)]:
    ["invalid literal for int() with base 10: %.200R"], the [repr] cut to
    200 characters *)
Definition int_error (s : string) : string :=
  "invalid literal for int() with base 10: " +++ substring 0 200 (str_repr s).

Definition retry_after_seconds (h : option string) : M Z :=
  match header_int h with
  | Some z => ret z
  | None => raise (ValueError (int_error (opt_default "" h)))
  end.

(** [_handle_rate_limit(response)] *)
Definition handle_rate_limit (r : response) : M bool :=
  if status_code r =? 429 then
    secs <- retry_after_seconds (retry_after r) ;;
    sleep secs ;;;
    ret true
  else ret false.

Definition max_retries : nat := 3.

(** [while self._handle_rate_limit(resp) and retry_count < max_retries:
    resp = <the same request>; retry_count += 1], with [k] the retries
    left, [k = max_retries - retry_count] *)
Fixpoint retry_loop (k : nat) (req : request) (resp : response) : M response :=
  b <- handle_rate_limit resp ;;
  if b then
    match k with
    | O => ret resp
    | S k' => resp' <- http req ;; retry_loop k' req resp'
    end
  else ret resp.

(** the initial search request and each transcript request, with their
    bounded rate-limit retries *)
Definition request_with_retries (req : request) : M response :=
  resp <- http req ;;
  retry_loop max_retries req resp.

(** [while cursor and len(all_calls) < limit: ...]; [continue] on a 429.
    One unit of fuel is spent per request of the loop. *)
Fixpoint paginate (fuel : nat) (url : string) (payload : json) (hdrs : headers) (limit : Z)
    (cursor all_calls : json) : M json :=
  if negb (truthy cursor) then ret all_calls else
  n <- py_len all_calls ;;
  if negb (n <? limit) then ret all_calls else
  match fuel with
  | O => nofuel
  | S fuel' =>
      resp <- http (Post url (with_cursor payload cursor) hdrs) ;;
      limited <- handle_rate_limit resp ;;
      if limited then paginate fuel' url payload hdrs limit cursor all_calls
      else
        raise_for_status resp url ;;;
        data <- response_json resp ;;
        page <- dget data "calls" (JArr []) ;;
        all_calls' <- py_extend all_calls page ;;
        records <- dget data "records" (JObj []) ;;
        cursor' <- dget records "cursor" JNull ;;
        paginate fuel' url payload hdrs limit cursor' all_calls'
  end.

(** the transcript of one call: the sentinel unless the (last) response
    is a 200 *)
Definition fetch_transcript (url : string) (hdrs : headers) : M string :=
  resp <- request_with_retries (Get url hdrs) ;;
  if status_code resp =? 200 then
    data <- response_json resp ;;
    segs <- dget data "transcript" (JArr []) ;;
    items <- py_iter segs ;;
    texts <- segment_texts items ;;
    ret (join_strings (String "010" EmptyString) texts)
  else ret no_transcript.

(** one iteration of [for call in all_calls] *)
Definition process_call (base_url : json) (hdrs : headers) (call : json) : M (json * json) :=
  call_id <- dget call "id" JNull ;;
  transcript <- fetch_transcript
                  (py_str base_url +++ "/v2/calls/" +++ py_str call_id +++ "/transcript") hdrs ;;
  result <- make_result base_url call call_id transcript ;;
  source_item <- make_source base_url call call_id ;;
  ret (result, source_item).

Fixpoint process_calls (base_url : json) (hdrs : headers) (calls : list json)
    : M (list json * list json) :=
  match calls with
  | [] => ret ([], [])
  | call :: rest =>
      rs <- process_call base_url hdrs call ;;
      acc <- process_calls base_url hdrs rest ;;
      ret (fst rs :: fst acc, snd rs :: snd acc)
  end.

(** the body of the [try] block *)
Definition search_body (fuel : nat) (base_url : json) (hdrs : headers) (query : string)
    (from_date to_date : option string) (limit : Z) (workspace_id : option string) : M json :=
  let search_url := py_str base_url +++ "/v2/calls/search" in
  let payload := search_payload query from_date to_date limit workspace_id in
  search_response <- request_with_retries (Post search_url payload hdrs) ;;
  raise_for_status search_response search_url ;;;
  search_data <- response_json search_response ;;
  all_calls <- dget search_data "calls" (JArr []) ;;
  records <- dget search_data "records" (JObj []) ;;
  cursor <- dget records "cursor" JNull ;;
  all_calls' <- paginate fuel search_url payload hdrs limit cursor all_calls ;;
  kept <- py_slice_to all_calls' limit ;;
  calls <- py_iter kept ;;
  rs <- process_calls base_url hdrs calls ;;
  ret (success_env query (fst rs) (snd rs)).

(** [GongSearchTool.invoke(input, trace)] *)
Definition invoke (fuel : nat) (cfg : config) (a : args) : M json :=
  let query := opt_default "" (q a) in
  let from_date := format_datetime (from_date a) in
  let to_date := format_datetime (to_date a) in
  let limit := opt_default 10 (limit a) in
  let workspace_id := workspace_id a in
  let base_url := cfg_get cfg "gong_base_url" (JStr default_base_url) in
  match get_auth_header cfg with
  | inl e => ret (error_env (exc_str e))
  | inr auth =>
      let hdrs := auth ++ [("Content-Type", "application/json")] in
      try_catch (search_body fuel base_url hdrs query from_date to_date limit workspace_id) handler
  end.

End Invoke.

(** ** Generic facts about the monad *)

(** a computation that only appends to the log *)
Definition extends {A} (m : M A) : Prop := forall l, exists l', snd (m l) = l ++ l'.

(** a computation whose first logged event is the request [r] *)
Definition starts_with {A} (r : request) (m : M A) : Prop :=
  forall l, exists rest, snd (m l) = l ++ Req r :: rest.

Lemma extends_ret {A} (a : A) : extends (ret a).
Proof. intros l; exists []; now rewrite app_nil_r. Qed.

Lemma extends_raise {A} (e : exc) : extends (@raise A e).
Proof. intros l; exists []; now rewrite app_nil_r. Qed.

Lemma extends_nofuel {A} : extends (@nofuel A).
Proof. intros l; exists []; now rewrite app_nil_r. Qed.

Lemma extends_sleep (s : Z) : extends (sleep s).
Proof.
  intros l; unfold sleep; destruct (s <? 0).
  - exists []; now rewrite app_nil_r.
  - now exists [Sleep s].
Qed.

Lemma extends_http (server : list event -> request -> response) (r : request) :
  extends (http server r).
Proof. intros l; now exists [Req r]. Qed.

Lemma extends_bind {A B} (m : M A) (k : A -> M B) :
  extends m -> (forall a, extends (k a)) -> extends (bind m k).
Proof.
  intros Hm Hk l; unfold bind.
  destruct (Hm l) as [l1 E1]; destruct (m l) as [[a| e|] l1'] eqn:Em; simpl in E1; subst.
  - destruct (Hk a (l ++ l1)) as [l2 E2]; exists (l1 ++ l2); now rewrite E2, app_assoc.
  - now exists l1.
  - now exists l1.
Qed.

Lemma extends_try_catch {A} (m : M A) (h : exc -> M A) :
  extends m -> (forall e, extends (h e)) -> extends (try_catch m h).
Proof.
  intros Hm Hh l; unfold try_catch.
  destruct (Hm l) as [l1 E1]; destruct (m l) as [[a| e|] l1'] eqn:Em; simpl in E1; subst.
  - now exists l1.
  - destruct (Hh e (l ++ l1)) as [l2 E2]; exists (l1 ++ l2); now rewrite E2, app_assoc.
  - now exists l1.
Qed.

Lemma extends_mapM {A B} (f : A -> M B) (xs : list A) :
  (forall x, extends (f x)) -> extends (mapM f xs).
Proof.
  intros Hf; induction xs as [|x xs IH]; simpl.
  - apply extends_ret.
  - apply extends_bind; [apply Hf|]; intros y.
    apply extends_bind; [apply IH|]; intros ys; apply extends_ret.
Qed.

Lemma starts_with_http_bind {A} (server : list event -> request -> response) (r : request)
    (k : response -> M A) :
  (forall a, extends (k a)) -> starts_with r (bind (http server r) k).
Proof.
  intros Hk l; unfold bind, http.
  destruct (Hk (server l r) (l ++ [Req r])) as [l2 E2]; exists l2.
  now rewrite E2, <- app_assoc.
Qed.

Lemma bind_assoc {A B C} (m : M A) (f : A -> M B) (g : B -> M C) (l : list event) :
  bind (bind m f) g l = bind m (fun a => bind (f a) g) l.
Proof. unfold bind; destruct (m l) as [[a| e|] l1]; reflexivity. Qed.

Lemma starts_with_bind {A B} (r : request) (m : M A) (k : A -> M B) :
  starts_with r m -> (forall a, extends (k a)) -> starts_with r (bind m k).
Proof.
  intros Hm Hk l; unfold bind.
  destruct (Hm l) as [rest E1]; destruct (m l) as [[a| e|] l1] eqn:Em; simpl in E1; subst.
  - destruct (Hk a (l ++ Req r :: rest)) as [l2 E2]; exists (rest ++ l2).
    now rewrite E2, <- app_assoc.
  - now exists rest.
  - now exists rest.
Qed.

Lemma starts_with_try_catch {A} (r : request) (m : M A) (h : exc -> M A) :
  starts_with r m -> (forall e, extends (h e)) -> starts_with r (try_catch m h).
Proof.
  intros Hm Hh l; unfold try_catch.
  destruct (Hm l) as [rest E1]; destruct (m l) as [[a| e|] l1] eqn:Em; simpl in E1; subst.
  - now exists rest.
  - destruct (Hh e (l ++ Req r :: rest)) as [l2 E2]; exists (rest ++ l2).
    now rewrite E2, <- app_assoc.
  - now exists rest.
Qed.

Create HintDb gong_mono.
#[export] Hint Resolve extends_ret extends_raise extends_nofuel extends_sleep extends_http
  : gong_mono.

(** splits a goal [extends m] along the binds, matches and conditionals of [m] *)
Ltac mono :=
  repeat first
    [ solve [eauto with gong_mono]
    | exact (extends_ret _)
    | apply extends_bind; intros
    | apply extends_try_catch; intros
    | apply extends_mapM; intros
    | lazymatch goal with
      | |- extends (if ?b then _ else _) => destruct b
      | |- extends (match ?x with _ => _ end) => destruct x
      | |- extends (fun l => if ?b then _ else _) => intros ?l; destruct b; revert l
      end ].

Lemma extends_dget d k def : extends (dget d k def).
Proof. unfold dget; mono. Qed.

Lemma extends_dindex d k : extends (dindex d k).
Proof. unfold dindex; mono. Qed.

Lemma extends_py_in k d : extends (py_in k d).
Proof. unfold py_in; mono. Qed.

Lemma extends_py_len v : extends (py_len v).
Proof. unfold py_len; mono. Qed.

Lemma extends_py_iter v : extends (py_iter v).
Proof. unfold py_iter; mono. Qed.

#[export] Hint Resolve extends_dget extends_dindex extends_py_in extends_py_len extends_py_iter
  : gong_mono.

Lemma extends_py_extend l v : extends (py_extend l v).
Proof. unfold py_extend; mono. Qed.

Lemma extends_py_slice_to v n : extends (py_slice_to v n).
Proof. unfold py_slice_to; mono. Qed.

Lemma extends_py_join sep xs : extends (py_join sep xs).
Proof. unfold py_join; mono. Qed.

Lemma extends_py_replace v o n : extends (py_replace v o n).
Proof. unfold py_replace; mono. Qed.

Lemma extends_raise_for_status r u : extends (raise_for_status r u).
Proof. unfold raise_for_status; mono. Qed.

Lemma extends_response_json r : extends (response_json r).
Proof. unfold response_json; mono. Qed.

#[export] Hint Resolve extends_py_extend extends_py_slice_to extends_py_join extends_py_replace
  extends_raise_for_status extends_response_json : gong_mono.

Lemma extends_party_names c : extends (party_names c).
Proof. unfold party_names; mono. Qed.

Lemma extends_call_ui_url b c : extends (call_ui_url b c).
Proof. unfold call_ui_url; mono. Qed.

#[export] Hint Resolve extends_party_names extends_call_ui_url : gong_mono.

Lemma extends_make_result b c i t : extends (make_result b c i t).
Proof. unfold make_result; mono. Qed.

Lemma extends_make_source b c i : extends (make_source b c i).
Proof. unfold make_source; mono. Qed.

Lemma extends_segment_texts segs : extends (segment_texts segs).
Proof. induction segs; simpl; mono. Qed.

Lemma extends_handler e : extends (handler e).
Proof. unfold handler; mono. Qed.

#[export] Hint Resolve extends_make_result extends_make_source extends_segment_texts
  extends_handler : gong_mono.

Section ServerFacts.

Variable server : list event -> request -> response.

Lemma extends_retry_after_seconds h : extends (retry_after_seconds h).
Proof. unfold retry_after_seconds; mono. Qed.

#[local] Hint Resolve extends_retry_after_seconds : gong_mono.

Lemma extends_handle_rate_limit r : extends (handle_rate_limit r).
Proof. unfold handle_rate_limit; mono. Qed.

#[local] Hint Resolve extends_handle_rate_limit : gong_mono.

Lemma extends_retry_loop k req resp : extends (retry_loop server k req resp).
Proof. revert resp; induction k; intros resp; simpl; mono. Qed.

#[local] Hint Resolve extends_retry_loop : gong_mono.

Lemma extends_request_with_retries req : extends (request_with_retries server req).
Proof. unfold request_with_retries; mono. Qed.

#[local] Hint Resolve extends_request_with_retries : gong_mono.

Lemma extends_paginate fuel url payload hdrs lim cursor calls :
  extends (paginate server fuel url payload hdrs lim cursor calls).
Proof.
  revert cursor calls; induction fuel; intros cursor calls; simpl; mono.
Qed.

Lemma extends_fetch_transcript url hdrs : extends (fetch_transcript server url hdrs).
Proof. unfold fetch_transcript; mono. Qed.

#[local] Hint Resolve extends_paginate extends_fetch_transcript : gong_mono.

Lemma extends_process_call b h c : extends (process_call server b h c).
Proof. unfold process_call; mono. Qed.

#[local] Hint Resolve extends_process_call : gong_mono.

Lemma extends_process_calls b h cs : extends (process_calls server b h cs).
Proof. induction cs; simpl; mono. Qed.

#[local] Hint Resolve extends_process_calls : gong_mono.

(** the first event of an authenticated invocation is the search request *)
Lemma invoke_first_request fuel cfg a auth :
  get_auth_header cfg = inr auth ->
  let base_url := cfg_get cfg "gong_base_url" (JStr default_base_url) in
  starts_with
    (Post (py_str base_url +++ "/v2/calls/search")
          (search_payload (opt_default "" (q a)) (format_datetime (from_date a))
             (format_datetime (to_date a)) (opt_default 10 (limit a)) (workspace_id a))
          (auth ++ [("Content-Type", "application/json")]))
    (invoke server fuel cfg a).
Proof.
  intros Hauth base_url l; unfold invoke; rewrite Hauth.
  apply starts_with_try_catch; [| intros; apply extends_handler].
  intros l0; unfold search_body.
  apply starts_with_bind; [| intros; mono].
  unfold request_with_retries.
  apply starts_with_http_bind; intros; mono.
Qed.

End ServerFacts.

#[export] Hint Resolve extends_retry_after_seconds extends_handle_rate_limit extends_retry_loop
  extends_request_with_retries extends_paginate extends_fetch_transcript extends_process_call
  extends_process_calls : gong_mono.


Lemma handle_rate_limit_other r l :
  status_code r <> 429 -> handle_rate_limit r l = (Ok false, l).
Proof.
  intros Hst; unfold handle_rate_limit.
  destruct (status_code r =? 429) eqn:E; [apply Z.eqb_eq in E; contradiction | reflexivity].
Qed.

Lemma bind_http server r {A} (k : response -> M A) l :
  bind (http server r) k l = k (server l r) (l ++ [Req r]).
Proof. reflexivity. Qed.


Lemma bind_handle_other r {A} (k : bool -> M A) l :
  status_code r <> 429 -> bind (handle_rate_limit r) k l = k false l.
Proof. intros; unfold bind at 1; now rewrite (handle_rate_limit_other r l). Qed.




Lemma retry_loop_other server k req resp l :
  status_code resp <> 429 -> retry_loop server k req resp l = (Ok resp, l).
Proof.
  intros H; destruct k; cbn [retry_loop]; rewrite bind_handle_other by assumption; reflexivity.
Qed.




Lemma bind_ok {A B} (m : M A) (k : A -> M B) a l l1 :
  m l = (Ok a, l1) -> bind m k l = k a l1.
Proof. intros H; unfold bind; now rewrite H. Qed.

Lemma bind_exn {A B} (m : M A) (k : A -> M B) e l l1 :
  m l = (Exn e, l1) -> bind m k l = (Exn e, l1).
Proof. intros H; unfold bind; now rewrite H. Qed.

Lemma bind_ok_inv {A B} (m : M A) (k : A -> M B) b l l' :
  bind m k l = (Ok b, l') -> exists a l1, m l = (Ok a, l1) /\ k a l1 = (Ok b, l').
Proof.
  unfold bind; destruct (m l) as [[a| e|] l1]; intros H; try discriminate; eauto.
Qed.

Ltac inv_bind H :=
  let a := fresh "a" in let l1 := fresh "l" in let Ha := fresh "Ha" in
  apply bind_ok_inv in H; destruct H as (a & l1 & Ha & H).

Lemma chars_length s : length (chars s) = String.length s.
Proof. induction s; simpl; congruence. Qed.

Lemma substring0_length n s : (String.length (substring 0 n s) <= n)%nat.
Proof.
  revert n; induction s; intros [|n]; simpl; try lia.
  specialize (IHs n); lia.
Qed.

(** [all_calls[:limit]] has at most [limit] items, for [limit >= 0] *)
Lemma slice_iter_length v n l l1 l2 kept cs :
  0 <= n -> py_slice_to v n l = (Ok kept, l1) -> py_iter kept l1 = (Ok cs, l2) ->
  (length cs <= Z.to_nat n)%nat.
Proof.
  intros Hn Hs Hi; destruct v; simpl in Hs; try discriminate; injection Hs as <- <-;
    simpl in Hi; injection Hi as <- <-.
  - rewrite chars_length; unfold str_slice_to.
    destruct (0 <=? n) eqn:E; [apply substring0_length | apply Z.leb_gt in E; lia].
  - unfold list_slice_to; destruct (0 <=? n) eqn:E; [|apply Z.leb_gt in E; lia].
    rewrite length_firstn; lia.
Qed.

Lemma process_calls_length server b h cs l rs ss l' :
  process_calls server b h cs l = (Ok (rs, ss), l') -> length rs = length cs.
Proof.
  revert l rs ss; induction cs as [|c cs IH]; intros l rs ss H; simpl in H.
  - now injection H as <- <- <-.
  - inv_bind H; inv_bind H; injection H as <- <- <-; simpl.
    destruct a0 as [rs' ss']; simpl; f_equal; eapply IH; exact Ha0.
Qed.

(** a successful run of the [try] block returns the success envelope of
    the records built for the kept calls *)
Lemma search_body_ok server fuel base hdrs query f t lim ws l env l' :
  search_body server fuel base hdrs query f t lim ws l = (Ok env, l') ->
  exists cs rs ss l1,
    env = success_env query rs ss
    /\ (0 <= lim -> (length cs <= Z.to_nat lim)%nat)
    /\ process_calls server base hdrs cs l1 = (Ok (rs, ss), l').
Proof.
  unfold search_body; cbv zeta; intros H.
  do 8 inv_bind H.
  inv_bind H; inv_bind H.
  destruct a8 as [rs ss]; injection H as <- <-.
  exists a7, rs, ss, l8; repeat split; auto.
  intros Hlim; eapply slice_iter_length; eauto.
Qed.

Lemma handler_error_env e l :
  exists msg, handler e l = (Ok (error_env msg), l) /\ msg <> "".
Proof. destruct e; eexists; split; try reflexivity; discriminate. Qed.

(** the outcomes of [invoke]: the error envelope, or the success envelope
    of a completed [try] block *)
Lemma invoke_ok_cases server fuel cfg a l env l' :
  invoke server fuel cfg a l = (Ok env, l') ->
  (exists msg, env = error_env msg /\ msg <> "")
  \/ (exists auth cs rs ss l1,
        get_auth_header cfg = inr auth
        /\ env = success_env (opt_default "" (q a)) rs ss
        /\ (0 <= opt_default 10 (limit a) -> Nat.le (length cs) (Z.to_nat (opt_default 10 (limit a))))
        /\ process_calls server (cfg_get cfg "gong_base_url" (JStr default_base_url))
             (auth ++ [("Content-Type", "application/json")]) cs l1 = (Ok (rs, ss), l')).
Proof.
  unfold invoke; cbv zeta; destruct (get_auth_header cfg) as [e|auth] eqn:Hauth.
  - intros H; injection H as <- <-; left; eexists; split; [reflexivity|].
    unfold get_auth_header in Hauth.
    destruct (_ && _); [discriminate|]; destruct (key_in _ _); [discriminate|].
    injection Hauth as <-; discriminate.
  - unfold try_catch; intros H.
    destruct (search_body _ _ _ _ _ _ _ _ _ l) as [[v| e|] l1] eqn:Hb; try discriminate.
    + injection H as <- <-; right.
      destruct (search_body_ok _ _ _ _ _ _ _ _ _ _ _ _ Hb) as (cs & rs & ss & l2 & E & Hlen & Hp).
      exists auth, cs, rs, ss, l2; auto.
    + left; destruct (handler_error_env e l1) as (msg & Hh & Hm).
      rewrite Hh in H; injection H as <- <-; eauto.
Qed.

Lemma dget_pure d k def l v l1 : dget d k def l = (Ok v, l1) -> l1 = l.
Proof. unfold dget, ret, raise; destruct d; try discriminate; destruct (assoc k kvs); congruence. Qed.

(** the fields of a [result] dict *)
Lemma make_result_fields b call cid t l res l1 :
  make_result b call cid t l = (Ok res, l1) ->
  exists title date dur names url ctx,
    res = JObj ([("callId", cid); ("title", title); ("date", date); ("duration", dur);
                 ("parties", JArr names); ("snippet", JStr (snippet_of t)); ("url", JStr url)] ++ ctx)
    /\ (ctx = [] \/ exists c, ctx = [("context", c)]).
Proof.
  unfold make_result; intros H.
  do 5 inv_bind H; cbv zeta in H; inv_bind H.
  destruct a4.
  - do 3 inv_bind H; injection H as <- <-.
    do 6 eexists; split; [reflexivity | right; eauto].
  - injection H as <- <-.
    exists a, a0, a1, a2, a3, []; rewrite app_nil_r; split; [reflexivity | left; reflexivity].
Qed.

(** the transcript text never makes the assembly of a record fail *)
Lemma make_result_any_transcript b call cid t t' l res l1 :
  make_result b call cid t l = (Ok res, l1) -> exists res', make_result b call cid t' l = (Ok res', l1).
Proof.
  unfold make_result; intros H.
  do 5 inv_bind H; cbv zeta in H; inv_bind H.
  rewrite (bind_ok _ _ _ _ _ Ha), (bind_ok _ _ _ _ _ Ha0), (bind_ok _ _ _ _ _ Ha1),
    (bind_ok _ _ _ _ _ Ha2), (bind_ok _ _ _ _ _ Ha3); cbv zeta; rewrite (bind_ok _ _ _ _ _ Ha4).
  destruct a4.
  - do 3 inv_bind H; injection H as <- <-.
    rewrite (bind_ok _ _ _ _ _ Ha5), (bind_ok _ _ _ _ _ Ha6), (bind_ok _ _ _ _ _ Ha7).
    eexists; reflexivity.
  - injection H as <- <-; eexists; reflexivity.
Qed.

Lemma process_calls_cons server b h c cs l r s l1 rs ss l2 :
  process_call server b h c l = (Ok (r, s), l1) ->
  process_calls server b h cs l1 = (Ok (rs, ss), l2) ->
  process_calls server b h (c :: cs) l = (Ok (r :: rs, s :: ss), l2).
Proof.
  intros H1 H2; cbn [process_calls].
  rewrite (bind_ok _ _ _ _ _ H1), (bind_ok _ _ _ _ _ H2); reflexivity.
Qed.

(** the transcript of a segment list whose segments all have an empty text *)
Definition text_is_empty (seg : json) : Prop :=
  exists skv, seg = JObj skv /\ truthy (opt_default (JStr "") (assoc "text" skv)) = false.

Lemma segment_texts_empty segs l :
  Forall text_is_empty segs -> segment_texts segs l = (Ok [], l).
Proof.
  induction 1 as [|seg segs [skv [-> Ht]] _ IH]; [reflexivity|].
  cbn [segment_texts]; unfold bind at 1, dget at 1.
  destruct (assoc "speakerName" skv); unfold ret at 1;
    unfold bind at 1, dget at 1;
    destruct (assoc "text" skv) eqn:E; simpl in Ht; unfold ret at 1; rewrite (bind_ok _ _ _ _ _ IH);
    rewrite ?Ht; reflexivity.
Qed.

Lemma process_calls_records server b h cs l rs ss l1 :
  process_calls server b h cs l = (Ok (rs, ss), l1) ->
  Forall (fun r => exists call cid t l2 l3, make_result b call cid t l2 = (Ok r, l3)) rs.
Proof.
  revert l rs ss; induction cs as [|c cs IH]; intros l rs ss H; cbn [process_calls] in H.
  - injection H as <- <- <-; constructor.
  - inv_bind H; inv_bind H; injection H as <- <- <-.
    destruct a as [r s], a0 as [rs' ss']; simpl; constructor; [|eapply IH; eauto].
    unfold process_call in Ha; do 4 inv_bind Ha; injection Ha as <- <- <-.
    do 5 eexists; eauto.
Qed.

Lemma substring0_length_le n s :
  (n <= String.length s)%nat -> String.length (substring 0 n s) = n.
Proof.
  revert n; induction s; intros [|n] H; simpl in *; try lia.
  rewrite IHs; lia.
Qed.

(** the shape of a call record, as the spec's data model lists it, with
    the duration under [duration] *)
Definition call_record_shape (r : json) : Prop :=
  exists cid title date dur names t url ctx,
    r = JObj ([("callId", cid); ("title", title); ("date", date); ("duration", dur);
               ("parties", JArr names); ("snippet", JStr (snippet_of t)); ("url", JStr url)] ++ ctx)
    /\ (ctx = [] \/ exists c, ctx = [("context", c)]).

(** *** Date normalisation *)

Lemma has_char_app c a b : has_char c (a +++ b) = has_char c a || has_char c b.
Proof. induction a; simpl; [reflexivity|]; rewrite IHa; apply orb_assoc. Qed.

















(** *** Example configurations, inputs and servers *)

Definition example_call : json :=
  JObj [("id", JStr "7782342274025937895"); ("title", JStr "Pricing review");
        ("startTime", JStr "2024-01-15T10:00:00Z"); ("duration", JNum 1800);
        ("parties", JArr [JObj [("name", JStr "Ana")]; JObj [("name", JStr "Raj")]])].

Definition example_cfg : config := [("gong_bearer_token", JStr "tok")].

Definition example_key_cfg : config :=
  [("gong_access_key", JStr "Aladdin"); ("gong_access_key_secret", JStr "open sesame")].

Definition example_args : args := mk_args (Some "pricing") (Some "2024-01-15") None (Some 5) None.

(** a server answering every search with [example_call] and no cursor, and
    every transcript request with [transcript_resp] *)
Definition example_server (transcript_resp : response) (l : list event) (r : request) : response :=
  match r with
  | Post _ _ _ => mk_response 200 "OK" None
                    (Some (JObj [("calls", JArr [example_call]); ("records", JObj [])]))
  | Get _ _ => transcript_resp
  end.

(** a server answering every request with the same response *)
Definition constant_server (resp : response) (l : list event) (r : request) : response := resp.

Definition field (k : string) (v : json) : option json :=
  match v with JObj kvs => assoc k kvs | _ => None end.

Definition output_records (env : json) : list json :=
  match field "output" env with Some (JArr out) => out | _ => [] end.

(** the durations slept, in order *)
Definition sleeps (l : list event) : list Z :=
  flat_map (fun e => match e with Sleep s => [s] | Req _ => [] end) l.

(** the envelope of a run that returned one, [null] otherwise *)
Definition result_of (r : outcome json * list event) : json :=
  match fst r with Ok env => env | _ => JNull end.

Definition source_items (env : json) : list json :=
  match field "sources" env with
  | Some (JArr [s]) => match field "items" s with Some (JArr xs) => xs | _ => [] end
  | _ => []
  end.


(** every line of a compiled transcript holds the ":" of
    [f"{speaker}: {text}"] *)
Lemma segment_texts_colon segs l texts l' :
  segment_texts segs l = (Ok texts, l') -> Forall (fun s => has_char ":" s = true) texts.
Proof.
  revert l texts l'; induction segs as [|seg segs IH]; intros l texts l' H.
  - cbn [segment_texts] in H; unfold ret in H; injection H as <- _; constructor.
  - cbn [segment_texts] in H; do 3 inv_bind H.
    destruct (truthy a0); unfold ret in H; injection H as <- _.
    + constructor; [|eapply IH; eauto].
      rewrite !has_char_app; change (has_char ":" ": ") with true.
      destruct (has_char ":" (py_str a)); reflexivity.
    + eapply IH; eauto.
Qed.

Lemma join_colon sep texts :
  Forall (fun s => has_char ":" s = true) texts -> texts <> [] ->
  has_char ":" (join_strings sep texts) = true.
Proof.
  induction 1 as [|x xs Hx Hxs IH]; [congruence|]; intros _.
  destruct xs as [|y ys]; [exact Hx|].
  change (join_strings sep (x :: y :: ys)) with (x +++ sep +++ join_strings sep (y :: ys)).
  rewrite has_char_app, Hx; reflexivity.
Qed.

(** a fetch whose last response is a 200 never gives the sentinel, one
    whose last response is not a 200 always does *)
Lemma fetch_transcript_sentinel_iff server url hdrs l r l1 t l2 :
  request_with_retries server (Get url hdrs) l = (Ok r, l1) ->
  fetch_transcript server url hdrs l = (Ok t, l2) ->
  (t = no_transcript <-> status_code r <> 200).
Proof.
  intros Hr H; unfold fetch_transcript in H; rewrite (bind_ok _ _ _ _ _ Hr) in H.
  destruct (status_code r =? 200) eqn:E.
  - apply Z.eqb_eq in E; split; [|intros C; contradiction].
    intros Heq; exfalso.
    do 4 inv_bind H; unfold ret in H; injection H as <- _.
    assert (Hn : has_char ":" no_transcript = false) by reflexivity.
    destruct a2 as [|x xs]; [discriminate Heq|].
    rewrite <- Heq, join_colon in Hn; [discriminate | eapply segment_texts_colon; eauto | discriminate].
  - apply Z.eqb_neq in E; unfold ret in H; injection H as <- _; tauto.
Qed.

(** the transcript data of a 200 answer that holds no segment with a text *)
Definition no_segment_text (kvs : list (string * json)) : Prop :=
  assoc "transcript" kvs = None
  \/ exists segs, assoc "transcript" kvs = Some (JArr segs) /\ Forall text_is_empty segs.

Lemma fetch_transcript_empty server url hdrs l r l1 kvs :
  request_with_retries server (Get url hdrs) l = (Ok r, l1) ->
  status_code r = 200 -> body r = Some (JObj kvs) -> no_segment_text kvs ->
  fetch_transcript server url hdrs l = (Ok "", l1).
Proof.
  intros Hr H200 Hb Hsegs.
  unfold fetch_transcript; rewrite (bind_ok _ _ _ _ _ Hr), H200; simpl.
  unfold bind at 1, response_json; rewrite Hb; unfold ret at 1.
  unfold bind at 1, dget at 1.
  destruct Hsegs as [Hn | (segs & Hs & Hall)].
  - rewrite Hn; reflexivity.
  - rewrite Hs; unfold ret at 1, bind at 1, py_iter, ret at 1.
    rewrite (bind_ok _ _ _ _ _ (segment_texts_empty _ l1 Hall)); reflexivity.
Qed.

(** ** Claims *)



(** C3: credentials.  Without both [gong_access_key] and
    [gong_access_key_secret] and without [gong_bearer_token] in the config,
    [invoke] returns [{"output": [], "error": msg}] with a non-empty
    message and nothing logged (no request); with both key and secret the
    header is Basic with the base64 of the UTF-8 bytes of "key:secret";
    otherwise, with a bearer token, it is Bearer; and the header selected is
    the one the search request carries. *)
Theorem credentials_select_auth_header (server : list event -> request -> response) :
  (forall cfg fuel a l,
     key_in "gong_access_key" cfg && key_in "gong_access_key_secret" cfg = false ->
     key_in "gong_bearer_token" cfg = false ->
     invoke server fuel cfg a l = (Ok (error_env credentials_error), l)
     /\ credentials_error <> "")
  /\ (forall cfg,
     key_in "gong_access_key" cfg && key_in "gong_access_key_secret" cfg = true ->
     get_auth_header cfg
     = inr [("Authorization", "Basic " +++ b64encode (utf8_encode
              (py_str (cfg_get cfg "gong_access_key" JNull) +++ ":"
               +++ py_str (cfg_get cfg "gong_access_key_secret" JNull))))])
  /\ (forall cfg,
     key_in "gong_access_key" cfg && key_in "gong_access_key_secret" cfg = false ->
     key_in "gong_bearer_token" cfg = true ->
     get_auth_header cfg
     = inr [("Authorization", "Bearer " +++ py_str (cfg_get cfg "gong_bearer_token" JNull))])
  /\ (forall fuel cfg a auth,
     get_auth_header cfg = inr auth ->
     starts_with
       (Post (py_str (cfg_get cfg "gong_base_url" (JStr default_base_url)) +++ "/v2/calls/search")
             (search_payload (opt_default "" (q a)) (format_datetime (from_date a))
                (format_datetime (to_date a)) (opt_default 10 (limit a)) (workspace_id a))
             (auth ++ [("Content-Type", "application/json")]))
       (invoke server fuel cfg a)).
Proof.
  split; [|split; [|split]].
  - intros cfg fuel a l Hkey Htok; unfold invoke, get_auth_header; rewrite Hkey, Htok.
    split; [reflexivity | discriminate].
  - intros cfg Hkey; unfold get_auth_header; now rewrite Hkey.
  - intros cfg Hkey Htok; unfold get_auth_header; now rewrite Hkey, Htok.
  - intros fuel cfg a auth Hauth; exact (invoke_first_request server fuel cfg a auth Hauth).
Qed.

(** C10: a missing [q] is not rejected: [args.get("q", "")] makes it the
    empty query, the invocation is the same as with [q = ""], and the
    (authenticated) search request carries [keywords = ""]. *)
Theorem missing_query_searches_empty_keywords (server : list event -> request -> response) :
  (forall fuel cfg a l,
     q a = None ->
     invoke server fuel cfg a l
     = invoke server fuel cfg (mk_args (Some "") (from_date a) (to_date a) (limit a) (workspace_id a)) l)
  /\ (forall fuel cfg a auth,
     (q a = None \/ q a = Some "") ->
     get_auth_header cfg = inr auth ->
     starts_with
       (Post (py_str (cfg_get cfg "gong_base_url" (JStr default_base_url)) +++ "/v2/calls/search")
             (search_payload "" (format_datetime (from_date a)) (format_datetime (to_date a))
                (opt_default 10 (limit a)) (workspace_id a))
             (auth ++ [("Content-Type", "application/json")]))
       (invoke server fuel cfg a))
  /\ (forall f t lim ws, exists rest,
     search_payload "" f t lim ws
     = JObj [("filter", JObj (("keywords", JStr "") :: rest)); ("limit", JNum lim)]).
Proof.
  split; [|split].
  - intros fuel cfg a l Hq; unfold invoke; rewrite Hq; reflexivity.
  - intros fuel cfg a auth Hq Hauth.
    pose proof (invoke_first_request server fuel cfg a auth Hauth) as H; simpl in H.
    destruct Hq as [Hq|Hq]; rewrite Hq in H; exact H.
  - intros f t lim ws; unfold search_payload; eexists; reflexivity.
Qed.

(** C4: for [limit >= 0] (the given limit or the default 10) every
    envelope [invoke] returns has at most [limit] records in [output]. *)
Theorem output_at_most_limit (server : list event -> request -> response) fuel cfg a l env l' :
  0 <= opt_default 10 (limit a) ->
  invoke server fuel cfg a l = (Ok env, l') ->
  exists out rest, env = JObj (("output", JArr out) :: rest)
                   /\ Nat.le (length out) (Z.to_nat (opt_default 10 (limit a))).
Proof.
  intros Hlim H.
  destruct (invoke_ok_cases _ _ _ _ _ _ _ H) as [(msg & -> & _) | (auth & cs & rs & ss & l1 & _ & -> & Hlen & Hp)].
  - exists [], [("error", JStr msg)]; split; [reflexivity | simpl; lia].
  - eexists rs, _; split; [reflexivity|].
    rewrite (process_calls_length _ _ _ _ _ _ _ _ Hp); auto.
Qed.

(** C8: no partial success.  [invoke] never lets an exception escape; when
    any step of the [try] block raises, the result is
    [{"output": [], "error": msg}] with a non-empty message, whatever was
    accumulated before; and every envelope returned is either that error
    envelope or the success envelope of a [try] block that ran to its end. *)
Theorem no_partial_success (server : list event -> request -> response) :
  (forall fuel cfg a l,
     match fst (invoke server fuel cfg a l) with Exn _ => False | _ => True end)
  /\ (forall fuel cfg a auth l e l1,
     get_auth_header cfg = inr auth ->
     search_body server fuel (cfg_get cfg "gong_base_url" (JStr default_base_url))
       (auth ++ [("Content-Type", "application/json")]) (opt_default "" (q a))
       (format_datetime (from_date a)) (format_datetime (to_date a))
       (opt_default 10 (limit a)) (workspace_id a) l = (Exn e, l1) ->
     exists msg, invoke server fuel cfg a l = (Ok (error_env msg), l1) /\ msg <> "")
  /\ (forall fuel cfg a l env l',
     invoke server fuel cfg a l = (Ok env, l') ->
     (exists msg, env = error_env msg /\ msg <> "")
     \/ (exists query rs ss, env = success_env query rs ss
           /\ search_body server fuel (cfg_get cfg "gong_base_url" (JStr default_base_url))
                (match get_auth_header cfg with inr h => h | inl _ => [] end
                 ++ [("Content-Type", "application/json")]) (opt_default "" (q a))
                (format_datetime (from_date a)) (format_datetime (to_date a))
                (opt_default 10 (limit a)) (workspace_id a) l = (Ok env, l'))).
Proof.
  split; [|split].
  - intros fuel cfg a l; unfold invoke; cbv zeta.
    destruct (get_auth_header cfg) as [e|auth]; [exact I|].
    unfold try_catch; destruct (search_body _ _ _ _ _ _ _ _ _ l) as [[v| e|] l1]; simpl; try exact I.
    destruct (handler_error_env e l1) as (msg & -> & _); exact I.
  - intros fuel cfg a auth l e l1 Hauth Hb; unfold invoke; cbv zeta; rewrite Hauth.
    unfold try_catch; rewrite Hb; apply handler_error_env.
  - intros fuel cfg a l env l' H.
    unfold invoke in H; cbv zeta in H; destruct (get_auth_header cfg) as [e|auth] eqn:Hauth.
    + left; injection H as <- <-; eexists; split; [reflexivity|].
      unfold get_auth_header in Hauth.
      destruct (_ && _); [discriminate|]; destruct (key_in _ _); [discriminate|].
      injection Hauth as <-; discriminate.
    + unfold try_catch in H.
      destruct (search_body _ _ _ _ _ _ _ _ _ l) as [[v| e|] l1] eqn:Hb; try discriminate.
      * injection H as <- <-; right.
        destruct (search_body_ok _ _ _ _ _ _ _ _ _ _ _ _ Hb) as (cs & rs & ss & l2 & E & _ & _).
        exists (opt_default "" (q a)), rs, ss; split; [exact E | reflexivity].
      * left; destruct (handler_error_env e l1) as (msg & Hh & Hm).
        rewrite Hh in H; injection H as <- <-; eauto.
Qed.

(** C6: a transcript fetch whose last response is not a 200 gives the
    sentinel "No transcript available" without raising; the call's record
    is still built, with that sentinel as its snippet; the transcript never
    makes the assembly of a record fail; and the loop over the kept calls
    puts each call's record, computed from that call alone, in order. *)
Theorem failed_transcript_keeps_record (server : list event -> request -> response) :
  (forall url hdrs l r l1,
     request_with_retries server (Get url hdrs) l = (Ok r, l1) -> status_code r <> 200 ->
     fetch_transcript server url hdrs l = (Ok no_transcript, l1))
  /\ (forall base hdrs call cid l r l1 res src,
     dget call "id" JNull l = (Ok cid, l) ->
     request_with_retries server
       (Get (py_str base +++ "/v2/calls/" +++ py_str cid +++ "/transcript") hdrs) l = (Ok r, l1) ->
     status_code r <> 200 ->
     make_result base call cid no_transcript l1 = (Ok res, l1) ->
     make_source base call cid l1 = (Ok src, l1) ->
     process_call server base hdrs call l = (Ok (res, src), l1)
     /\ exists kvs, res = JObj kvs /\ assoc "snippet" kvs = Some (JStr no_transcript))
  /\ (forall base call cid t t' l res l1,
     make_result base call cid t l = (Ok res, l1) ->
     exists res', make_result base call cid t' l = (Ok res', l1))
  /\ (forall base hdrs c cs l r s l1 rs ss l2,
     process_call server base hdrs c l = (Ok (r, s), l1) ->
     process_calls server base hdrs cs l1 = (Ok (rs, ss), l2) ->
     process_calls server base hdrs (c :: cs) l = (Ok (r :: rs, s :: ss), l2)).
Proof.
  assert (Hf : forall url hdrs l r l1,
     request_with_retries server (Get url hdrs) l = (Ok r, l1) -> status_code r <> 200 ->
     fetch_transcript server url hdrs l = (Ok no_transcript, l1)).
  { intros url hdrs l r l1 Hr H200; unfold fetch_transcript; rewrite (bind_ok _ _ _ _ _ Hr).
    destruct (status_code r =? 200) eqn:E; [apply Z.eqb_eq in E; contradiction | reflexivity]. }
  split; [exact Hf|]; split; [|split].
  - intros base hdrs call cid l r l1 res src Hid Hr H200 Hres Hsrc; split.
    + unfold process_call; rewrite (bind_ok _ _ _ _ _ Hid), (bind_ok _ _ _ _ _ (Hf _ _ _ _ _ Hr H200)),
        (bind_ok _ _ _ _ _ Hres), (bind_ok _ _ _ _ _ Hsrc); reflexivity.
    + destruct (make_result_fields _ _ _ _ _ _ _ Hres) as (ti & da & du & na & u & ctx & -> & _).
      eexists; split; [reflexivity | reflexivity].
  - exact make_result_any_transcript.
  - exact (process_calls_cons server).
Qed.

(** C7 (as amended): a transcript fetch answered with a 200 whose
    transcript is absent, empty, or made only of segments with an empty
    text gives the empty transcript, not the sentinel, and raises nothing;
    the sentinel comes exactly from a last response whose status is not
    200; and the record of a call whose transcript fetch is such a 200 has
    the empty string as its snippet. *)
Theorem empty_transcript_gives_empty_snippet (server : list event -> request -> response) :
  (forall url hdrs l r l1 kvs,
     request_with_retries server (Get url hdrs) l = (Ok r, l1) ->
     status_code r = 200 -> body r = Some (JObj kvs) -> no_segment_text kvs ->
     fetch_transcript server url hdrs l = (Ok "", l1))
  /\ (forall url hdrs l r l1 t l2,
     request_with_retries server (Get url hdrs) l = (Ok r, l1) ->
     fetch_transcript server url hdrs l = (Ok t, l2) ->
     (t = no_transcript <-> status_code r <> 200))
  /\ (forall base hdrs call cid l r l1 kvs res src l2,
     dget call "id" JNull l = (Ok cid, l) ->
     request_with_retries server
       (Get (py_str base +++ "/v2/calls/" +++ py_str cid +++ "/transcript") hdrs) l = (Ok r, l1) ->
     status_code r = 200 -> body r = Some (JObj kvs) -> no_segment_text kvs ->
     process_call server base hdrs call l = (Ok (res, src), l2) ->
     exists fields, res = JObj fields /\ assoc "snippet" fields = Some (JStr ""))
  /\ "" <> no_transcript.
Proof.
  split; [|split; [|split]].
  - exact (fetch_transcript_empty server).
  - exact (fetch_transcript_sentinel_iff server).
  - intros base hdrs call cid l r l1 kvs res src l2 Hid Hr H200 Hb Hsegs H.
    unfold process_call in H; rewrite (bind_ok _ _ _ _ _ Hid) in H.
    rewrite (bind_ok _ _ _ _ _ (fetch_transcript_empty _ _ _ _ _ _ _ Hr H200 Hb Hsegs)) in H.
    do 2 inv_bind H; unfold ret in H; injection H as <- _.
    destruct (make_result_fields _ _ _ _ _ _ _ Ha)
      as (title & date & dur & names & url & ctx & -> & _).
    eexists; split; [reflexivity | reflexivity].
  - discriminate.
Qed.

(** C9 (as amended): every record in the output of a successful
    invocation is [{callId, title, date, duration, parties, snippet, url}]
    followed by an optional [context]; the duration is under [duration]
    (there is no [durationSeconds]); the snippet of a transcript longer
    than 200 characters is its first 200 characters and "...", a shorter
    one is the transcript itself. *)
Theorem call_records_shape (server : list event -> request -> response) :
  (forall fuel cfg a l query rs ss l',
     invoke server fuel cfg a l = (Ok (success_env query rs ss), l') ->
     Forall call_record_shape rs)
  /\ (forall t, (200 < String.length t)%nat ->
        snippet_of t = substring 0 200 t +++ "..." /\ String.length (substring 0 200 t) = 200%nat)
  /\ (forall t, (String.length t <= 200)%nat -> snippet_of t = t).
Proof.
  split; [|split].
  - intros fuel cfg a l query rs ss l' H.
    destruct (invoke_ok_cases _ _ _ _ _ _ _ H) as [(msg & E & _) | (auth & cs & rs' & ss' & l1 & _ & E & _ & Hp)];
      [discriminate|].
    inversion E; subst.
    apply process_calls_records in Hp.
    eapply Forall_impl; [|exact Hp].
    intros r (call & cid & t & l2 & l3 & Hm).
    destruct (make_result_fields _ _ _ _ _ _ _ Hm) as (ti & da & du & na & u & ctx & -> & Hc).
    exists cid, ti, da, du, na, t, u, ctx; auto.
  - intros t Ht; unfold snippet_of.
    destruct (200 <? Z.of_nat (String.length t)) eqn:E; [|apply Z.ltb_ge in E; lia].
    split; [reflexivity | apply substring0_length_le; lia].
  - intros t Ht; unfold snippet_of.
    destruct (200 <? Z.of_nat (String.length t)) eqn:E; [apply Z.ltb_lt in E; lia | reflexivity].
Qed.


(** ** Counterexamples *)



(** C7: a 200 transcript answer with an empty transcript list gives the
    empty snippet, not the sentinel. *)
Lemma empty_transcript_not_sentinel :
  let srv := example_server (mk_response 200 "OK" None (Some (JObj [("transcript", JArr [])]))) in
  let run := invoke srv 5 example_cfg example_args [] in
  match fst run with
  | Ok env => map (field "snippet") (output_records env) = [Some (JStr "")]
              /\ field "error" env = None
  | _ => False
  end.
Proof. vm_compute; split; reflexivity. Qed.

(** C9: the record carries the duration under [duration]; it has no
    [durationSeconds] field. *)
Lemma record_has_no_durationSeconds :
  let srv := example_server
               (mk_response 200 "OK" None
                  (Some (JObj [("transcript", JArr [JObj [("speakerName", JStr "Ana");
                                                         ("text", JStr "Hello")]])]))) in
  let run := invoke srv 5 example_cfg example_args [] in
  match fst run with
  | Ok env => map (field "durationSeconds") (output_records env) = [None]
              /\ map (field "duration") (output_records env) = [Some (JNum 1800)]
  | _ => False
  end.
Proof. vm_compute; split; reflexivity. Qed.

(** ** Witnesses: the claims' hypotheses met at concrete inputs *)

Definition page_server : list event -> request -> response :=
  constant_server (mk_response 200 "OK" None
    (Some (JObj [("calls", JArr [JNum 1]); ("records", JObj [("cursor", JStr "def")])]))).

Definition limited_server (h : option string) : list event -> request -> response :=
  constant_server (mk_response 429 "Too Many Requests" h None).

Definition example_payload : json := JObj [("limit", JNum 5)].



Lemma credentials_select_auth_header_witness :
  let srv := example_server (mk_response 404 "Not Found" None None) in
  invoke srv 5 [] example_args [] = (Ok (error_env credentials_error), [])
  /\ get_auth_header example_key_cfg
     = inr [("Authorization", "Basic " +++ b64encode (utf8_encode "Aladdin:open sesame"))]
  /\ get_auth_header example_cfg = inr [("Authorization", "Bearer tok")]
  /\ starts_with
       (Post (default_base_url +++ "/v2/calls/search")
             (search_payload "pricing" (Some "2024-01-15T00:00:00Z") None 5 None)
             [("Authorization", "Bearer tok"); ("Content-Type", "application/json")])
       (invoke srv 5 example_cfg example_args).
Proof.
  intros srv.
  destruct (credentials_select_auth_header srv) as (H1 & H2 & H3 & H4).
  split; [|split; [|split]].
  - exact (proj1 (H1 [] 5%nat example_args [] eq_refl eq_refl)).
  - exact (H2 example_key_cfg eq_refl).
  - exact (H3 example_cfg eq_refl eq_refl).
  - exact (H4 5%nat example_cfg example_args _ eq_refl).
Defined.

Lemma missing_query_searches_empty_keywords_witness :
  let srv := example_server (mk_response 404 "Not Found" None None) in
  let a := mk_args None None None (Some 3) None in
  invoke srv 5 example_cfg a [] = invoke srv 5 example_cfg (mk_args (Some "") None None (Some 3) None) []
  /\ starts_with
       (Post (default_base_url +++ "/v2/calls/search") (search_payload "" None None 3 None)
             [("Authorization", "Bearer tok"); ("Content-Type", "application/json")])
       (invoke srv 5 example_cfg a).
Proof.
  intros srv a.
  destruct (missing_query_searches_empty_keywords srv) as (H1 & H2 & _).
  split.
  - exact (H1 5%nat example_cfg a [] eq_refl).
  - exact (H2 5%nat example_cfg a _ (or_introl eq_refl) eq_refl).
Defined.

Lemma output_at_most_limit_witness :
  let srv := example_server (mk_response 404 "Not Found" None None) in
  let run := invoke srv 5 example_cfg example_args [] in
  run = (Ok (result_of run), snd run)
  /\ exists out rest, result_of run = JObj (("output", JArr out) :: rest) /\ Nat.le (length out) 5.
Proof.
  intros srv run.
  assert (E : run = (Ok (result_of run), snd run)) by (vm_compute; reflexivity).
  split; [exact E|].
  exact (output_at_most_limit srv 5 example_cfg example_args [] _ _ ltac:(cbv; discriminate) E).
Defined.

Lemma no_partial_success_witness :
  let srv := constant_server (mk_response 500 "Internal Server Error" None None) in
  let ok := example_server (mk_response 404 "Not Found" None None) in
  let hdrs := [("Authorization", "Bearer tok"); ("Content-Type", "application/json")] in
  let body := search_body srv 5 (JStr default_base_url) hdrs "pricing"
                (Some "2024-01-15T00:00:00Z") None 5 None [] in
  let run := invoke ok 5 example_cfg example_args [] in
  match fst (invoke srv 5 example_cfg example_args []) with Exn _ => False | _ => True end
  /\ (exists e, fst body = Exn e)
  /\ (exists msg, invoke srv 5 example_cfg example_args [] = (Ok (error_env msg), snd body)
                  /\ msg <> "")
  /\ ((exists msg, result_of run = error_env msg /\ msg <> "")
      \/ (exists query rs ss, result_of run = success_env query rs ss
            /\ search_body ok 5 (JStr default_base_url) hdrs "pricing"
                 (Some "2024-01-15T00:00:00Z") None 5 None [] = (Ok (result_of run), snd run))).
Proof.
  intros srv ok hdrs body run.
  destruct (no_partial_success srv) as (H1 & H2 & _).
  destruct (no_partial_success ok) as (_ & _ & H3).
  assert (Eb : body = (Exn (HTTPError ("500 Server Error: Internal Server Error for url: " +++ default_base_url
                                        +++ "/v2/calls/search")), snd body))
    by (vm_compute; reflexivity).
  assert (Er : run = (Ok (result_of run), snd run)) by (vm_compute; reflexivity).
  split; [|split; [|split]].
  - exact (H1 5%nat example_cfg example_args []).
  - eexists; rewrite Eb; reflexivity.
  - exact (H2 5%nat example_cfg example_args _ [] _ _ eq_refl Eb).
  - exact (H3 5%nat example_cfg example_args [] _ _ Er).
Defined.

Lemma failed_transcript_keeps_record_witness :
  let srv := example_server (mk_response 404 "Not Found" None None) in
  let base := JStr default_base_url in
  let cid := JStr "7782342274025937895" in
  let url := default_base_url +++ "/v2/calls/7782342274025937895/transcript" in
  let l1 := [Req (Get url [])] in
  let res := result_of (fst (make_result base example_call cid no_transcript l1), l1) in
  let src := result_of (fst (make_source base example_call cid l1), l1) in
  fetch_transcript srv url [] [] = (Ok no_transcript, l1)
  /\ (process_call srv base [] example_call [] = (Ok (res, src), l1)
      /\ exists kvs, res = JObj kvs /\ assoc "snippet" kvs = Some (JStr no_transcript))
  /\ (exists res', make_result base example_call cid "Hello" [] = (Ok res', []))
  /\ process_calls srv base [] [example_call] [] = (Ok ([res], [src]), l1).
Proof.
  intros srv base cid url l1 res src.
  destruct (failed_transcript_keeps_record srv) as (H1 & H2 & H3 & H4).
  assert (Er : make_result base example_call cid no_transcript l1 = (Ok res, l1))
    by (vm_compute; reflexivity).
  assert (Es : make_source base example_call cid l1 = (Ok src, l1))
    by (vm_compute; reflexivity).
  assert (Ep : process_call srv base [] example_call [] = (Ok (res, src), l1)
               /\ exists kvs, res = JObj kvs /\ assoc "snippet" kvs = Some (JStr no_transcript))
    by exact (H2 base [] example_call cid [] (mk_response 404 "Not Found" None None) l1 res src
                eq_refl eq_refl ltac:(discriminate) Er Es).
  split; [|split; [exact Ep|split]].
  - exact (H1 url [] [] (mk_response 404 "Not Found" None None) l1 eq_refl ltac:(discriminate)).
  - exact (H3 base example_call cid no_transcript "Hello" [] res [] ltac:(vm_compute; reflexivity)).
  - exact (H4 base [] example_call [] [] res src l1 [] [] l1 (proj1 Ep) eq_refl).
Defined.

Lemma empty_transcript_gives_empty_snippet_witness :
  let resp := mk_response 200 "OK" None (Some (JObj [("transcript", JArr [])])) in
  let srv := example_server resp in
  let lost := mk_response 404 "Not Found" None None in
  let turl := default_base_url +++ "/v2/calls/7782342274025937895/transcript" in
  let run := process_call srv (JStr default_base_url) [] example_call [] in
  let res := match fst run with Ok (r, _) => r | _ => JNull end in
  let src := match fst run with Ok (_, s) => s | _ => JNull end in
  fetch_transcript srv "u" [] [] = (Ok "", [Req (Get "u" [])])
  /\ ("" = no_transcript <-> status_code resp <> 200)
  /\ (no_transcript = no_transcript <-> status_code lost <> 200)
  /\ run = (Ok (res, src), snd run)
  /\ (exists fields, res = JObj fields /\ assoc "snippet" fields = Some (JStr ""))
  /\ "" <> no_transcript.
Proof.
  intros resp srv lost turl run res src.
  destruct (empty_transcript_gives_empty_snippet srv) as (H1 & H2 & H3 & H4).
  destruct (empty_transcript_gives_empty_snippet (example_server lost)) as (_ & H2' & _ & _).
  assert (Hsegs : no_segment_text [("transcript", JArr [])])
    by exact (or_intror (ex_intro _ [] (conj eq_refl (Forall_nil _)))).
  assert (E : run = (Ok (res, src), snd run)) by (vm_compute; reflexivity).
  split; [|split; [|split; [|split]]].
  - exact (H1 "u" [] [] resp [Req (Get "u" [])] [("transcript", JArr [])]
             eq_refl eq_refl eq_refl Hsegs).
  - exact (H2 "u" [] [] resp [Req (Get "u" [])] "" [Req (Get "u" [])] eq_refl eq_refl).
  - exact (H2' "u" [] [] lost [Req (Get "u" [])] no_transcript [Req (Get "u" [])] eq_refl eq_refl).
  - exact E.
  - split; [|exact H4].
    exact (H3 (JStr default_base_url) [] example_call (JStr "7782342274025937895") [] resp
             [Req (Get turl [])] [("transcript", JArr [])] res src (snd run)
             eq_refl eq_refl eq_refl eq_refl Hsegs E).
Defined.

Lemma call_records_shape_witness :
  let srv := example_server
               (mk_response 200 "OK" None
                  (Some (JObj [("transcript", JArr [JObj [("speakerName", JStr "Ana");
                                                         ("text", JStr "Hello")]])]))) in
  let run := invoke srv 5 example_cfg example_args [] in
  let env := result_of run in
  run = (Ok (success_env "pricing" (output_records env) (source_items env)), snd run)
  /\ Forall call_record_shape (output_records env)
  /\ snippet_of (String.concat "" (repeat "abcde" 50))
     = substring 0 200 (String.concat "" (repeat "abcde" 50)) +++ "..."
  /\ snippet_of (String.concat "" (repeat "abc" 50)) = String.concat "" (repeat "abc" 50).
Proof.
  intros srv run env.
  destruct (call_records_shape srv) as (H1 & H2 & H3).
  assert (E : run = (Ok (success_env "pricing" (output_records env) (source_items env)), snd run))
    by (vm_compute; reflexivity).
  split; [exact E|split; [|split]].
  - exact (H1 5%nat example_cfg example_args [] _ _ _ _ E).
  - exact (proj1 (H2 (String.concat "" (repeat "abcde" 50)) ltac:(vm_compute; lia))).
  - exact (H3 (String.concat "" (repeat "abc" 50)) ltac:(vm_compute; lia)).
Defined.


(** ** Further properties of [tool.py] *)

(** *** The requests a computation sends, and what it returns *)

(** [runs P Q m]: from any log, [m] only appends events, every request
    it sends satisfies [P], and a value it returns satisfies [Q] *)
Definition runs {A} (P : request -> Prop) (Q : A -> Prop) (m : M A) : Prop :=
  forall l, exists d, snd (m l) = l ++ d
    /\ (forall r, In (Req r) d -> P r)
    /\ (forall a, fst (m l) = Ok a -> Q a).

Definition always {A} (a : A) : Prop := True.

Lemma runs_ret {A} P (Q : A -> Prop) a : Q a -> runs P Q (ret a).
Proof.
  intros HQ l; exists []; rewrite app_nil_r; repeat split; [intros r []|].
  intros a' H; simpl in H; injection H as <-; exact HQ.
Qed.

Lemma runs_raise {A} P (Q : A -> Prop) e : runs P Q (raise e).
Proof. intros l; exists []; rewrite app_nil_r; repeat split; [intros r [] | discriminate]. Qed.

Lemma runs_nofuel {A} P (Q : A -> Prop) : runs P Q nofuel.
Proof. intros l; exists []; rewrite app_nil_r; repeat split; [intros r [] | discriminate]. Qed.

Lemma runs_bind {A B} P (Q : A -> Prop) (R : B -> Prop) m k :
  runs P Q m -> (forall a, Q a -> runs P R (k a)) -> runs P R (bind m k).
Proof.
  intros Hm Hk l; destruct (Hm l) as (d1 & E1 & P1 & Q1).
  unfold bind; destruct (m l) as [[a| e|] l1]; simpl in E1; subst l1.
  - destruct (Hk a (Q1 a eq_refl) (l ++ d1)) as (d2 & E2 & P2 & Q2).
    exists (d1 ++ d2); rewrite E2, app_assoc; repeat split; auto.
    intros r Hr; apply in_app_or in Hr; destruct Hr; auto.
  - exists d1; repeat split; auto; discriminate.
  - exists d1; repeat split; auto; discriminate.
Qed.

Lemma runs_bind_T {A B} P (R : B -> Prop) (m : M A) k :
  runs P always m -> (forall a, runs P R (k a)) -> runs P R (bind m k).
Proof. intros Hm Hk; apply (runs_bind P always); auto. Qed.

Lemma runs_weaken {A} (P P' : request -> Prop) (Q Q' : A -> Prop) m :
  (forall r, P r -> P' r) -> (forall a, Q a -> Q' a) -> runs P Q m -> runs P' Q' m.
Proof.
  intros HP HQ Hm l; destruct (Hm l) as (d & E & Hd & Ha); exists d; repeat split; auto.
Qed.

Lemma runs_try_catch {A} P (Q : A -> Prop) m h :
  runs P Q m -> (forall e, runs P Q (h e)) -> runs P Q (try_catch m h).
Proof.
  intros Hm Hh l; destruct (Hm l) as (d1 & E1 & P1 & Q1).
  unfold try_catch; destruct (m l) as [[a| e|] l1]; simpl in E1; subst l1.
  - exists d1; auto.
  - destruct (Hh e (l ++ d1)) as (d2 & E2 & P2 & Q2).
    exists (d1 ++ d2); rewrite E2, app_assoc; repeat split; auto.
    intros r Hr; apply in_app_or in Hr; destruct Hr; auto.
  - exists d1; auto.
Qed.

Lemma runs_sleep P s : runs P always (sleep s).
Proof.
  intros l; unfold sleep; destruct (s <? 0); simpl.
  - exists []; rewrite app_nil_r; repeat split; intros r [].
  - exists [Sleep s]; repeat split; intros r [H|[]]; discriminate.
Qed.

Lemma runs_mapM {A B} P (f : A -> M B) xs :
  (forall x, runs P always (f x)) -> runs P always (mapM f xs).
Proof.
  intros Hf; induction xs as [|x xs IH]; simpl.
  - apply runs_ret; exact I.
  - apply runs_bind_T; [apply Hf|]; intros y.
    apply runs_bind_T; [exact IH|]; intros ys; apply runs_ret; exact I.
Qed.

(** splits a goal [runs P always m] along the binds, matches and
    conditionals of [m] *)
Create HintDb gong_runs.
Ltac runs_auto :=
  repeat first
    [ solve [eauto with gong_runs]
    | apply runs_ret; exact I
    | apply runs_raise
    | apply runs_nofuel
    | apply runs_sleep
    | apply runs_bind_T; [| intros ?; cbv beta]
    | apply runs_try_catch; [| intros ?]
    | apply runs_mapM; intros ?
    | lazymatch goal with
      | |- runs _ _ (if ?b then _ else _) => destruct b
      | |- runs _ _ (match ?x with _ => _ end) => destruct x
      end ].

Lemma runs_dget P d k def : runs P always (dget d k def).
Proof. unfold dget; runs_auto. Qed.
Lemma runs_dindex P d k : runs P always (dindex d k).
Proof. unfold dindex; runs_auto. Qed.
Lemma runs_py_in P k d : runs P always (py_in k d).
Proof. unfold py_in; runs_auto. Qed.
Lemma runs_py_len P v : runs P always (py_len v).
Proof. unfold py_len; runs_auto. Qed.
Lemma runs_py_iter P v : runs P always (py_iter v).
Proof. unfold py_iter; runs_auto. Qed.
Lemma runs_py_extend P l v : runs P always (py_extend l v).
Proof. unfold py_extend; runs_auto; apply runs_py_iter. Qed.
Lemma runs_py_slice_to P v n : runs P always (py_slice_to v n).
Proof. unfold py_slice_to; runs_auto. Qed.
Lemma runs_py_join P sep xs : runs P always (py_join sep xs).
Proof. unfold py_join; runs_auto. Qed.
Lemma runs_py_replace P v o n : runs P always (py_replace v o n).
Proof. unfold py_replace; runs_auto. Qed.
Lemma runs_raise_for_status P r u : runs P always (raise_for_status r u).
Proof. unfold raise_for_status; runs_auto. Qed.
Lemma runs_response_json P r : runs P always (response_json r).
Proof. unfold response_json; runs_auto. Qed.
#[export] Hint Resolve runs_dget runs_dindex runs_py_in runs_py_len runs_py_iter runs_py_extend
  runs_py_slice_to runs_py_join runs_py_replace runs_raise_for_status runs_response_json : gong_runs.

Lemma runs_party_names P c : runs P always (party_names c).
Proof. unfold party_names; runs_auto. Qed.
Lemma runs_call_ui_url P b c : runs P always (call_ui_url b c).
Proof. unfold call_ui_url; runs_auto. Qed.
#[export] Hint Resolve runs_party_names runs_call_ui_url : gong_runs.
Lemma runs_make_result P b c i t : runs P always (make_result b c i t).
Proof. unfold make_result; runs_auto. Qed.
Lemma runs_make_source P b c i : runs P always (make_source b c i).
Proof. unfold make_source; runs_auto. Qed.
Lemma runs_segment_texts P segs : runs P always (segment_texts segs).
Proof. induction segs; simpl; runs_auto. Qed.
Lemma runs_handler P e : runs P always (handler e).
Proof. unfold handler; runs_auto. Qed.
#[export] Hint Resolve runs_make_result runs_make_source runs_segment_texts runs_handler : gong_runs.

Section RunsServer.
Variable server : list event -> request -> response.

Lemma runs_http P r : P r -> runs P always (http server r).
Proof.
  intros HP l; exists [Req r]; repeat split.
  intros r' [H|[]]; injection H as <-; exact HP.
Qed.

Lemma runs_handle_rate_limit P r : runs P always (handle_rate_limit r).
Proof. unfold handle_rate_limit, retry_after_seconds; runs_auto. Qed.
#[local] Hint Resolve runs_handle_rate_limit : gong_runs.

Lemma runs_retry_loop P k req resp : P req -> runs P always (retry_loop server k req resp).
Proof.
  intros HP; revert resp; induction k; intros resp; simpl; runs_auto; apply runs_http; exact HP.
Qed.

Lemma runs_request_with_retries P req : P req -> runs P always (request_with_retries server req).
Proof.
  intros HP; unfold request_with_retries; apply runs_bind_T; [apply runs_http; exact HP|].
  intros resp; apply runs_retry_loop; exact HP.
Qed.

Lemma runs_paginate P fuel url payload hdrs lim cursor calls :
  (forall c, P (Post url (with_cursor payload c) hdrs)) ->
  runs P always (paginate server fuel url payload hdrs lim cursor calls).
Proof.
  intros HP; revert cursor calls; induction fuel; intros cursor calls; simpl; runs_auto;
    try apply runs_http; auto.
Qed.

(** with [limit <= 0] the pagination loop neither sends a request nor
    changes the calls *)
Lemma runs_paginate_nonpos P fuel url payload hdrs lim cursor calls :
  lim <= 0 ->
  runs P (fun v => v = calls) (paginate server fuel url payload hdrs lim cursor calls).
Proof.
  intros Hlim; destruct fuel; simpl;
    (destruct (truthy cursor); simpl; [|apply runs_ret; reflexivity]);
    (apply (runs_bind P (fun n => 0 <= n)); [|intros n Hn; destruct (n <? lim) eqn:E;
       [apply Z.ltb_lt in E; lia | apply runs_ret; reflexivity]]);
    (unfold py_len; destruct calls; try apply runs_raise; apply runs_ret; lia).
Qed.

Lemma runs_fetch_transcript P url hdrs :
  P (Get url hdrs) -> runs P always (fetch_transcript server url hdrs).
Proof.
  intros HP; unfold fetch_transcript; apply runs_bind_T;
    [apply runs_request_with_retries; exact HP|]; intros resp; runs_auto.
Qed.

Lemma runs_process_calls P b h cs :
  (forall id, P (Get (py_str b +++ "/v2/calls/" +++ py_str id +++ "/transcript") h)) ->
  runs P always (process_calls server b h cs).
Proof.
  intros HP; induction cs as [|c cs IH]; simpl; [runs_auto|].
  apply runs_bind_T; [|intros rs; runs_auto].
  unfold process_call; apply runs_bind_T; [runs_auto|]; intros id.
  apply runs_bind_T; [apply runs_fetch_transcript; apply HP|]; intros t; runs_auto.
Qed.

Lemma runs_search_body P fuel base hdrs query f t lim ws :
  let url := py_str base +++ "/v2/calls/search" in
  let payload := search_payload query f t lim ws in
  P (Post url payload hdrs) -> (forall c, P (Post url (with_cursor payload c) hdrs)) ->
  (forall id, P (Get (py_str base +++ "/v2/calls/" +++ py_str id +++ "/transcript") hdrs)) ->
  runs P always (search_body server fuel base hdrs query f t lim ws).
Proof.
  intros url payload H1 H2 H3; unfold search_body; cbv zeta.
  apply runs_bind_T; [apply runs_request_with_retries; exact H1|]; intros resp.
  runs_auto; [apply runs_paginate; exact H2 | apply runs_process_calls; exact H3].
Qed.

End RunsServer.
#[export] Hint Resolve runs_handle_rate_limit : gong_runs.

(** the URL, headers and payload of the search request of [invoke] *)
Definition base_url_of (cfg : config) : string :=
  py_str (cfg_get cfg "gong_base_url" (JStr default_base_url)).

Definition search_url_of (cfg : config) : string := base_url_of cfg +++ "/v2/calls/search".

Definition request_headers (auth : headers) : headers := auth ++ [("Content-Type", "application/json")].

Definition search_payload_of (a : args) : json :=
  search_payload (opt_default "" (q a)) (format_datetime (from_date a)) (format_datetime (to_date a))
    (opt_default 10 (limit a)) (workspace_id a).

Lemma runs_and_log {A} P (Q : A -> Prop) m :
  runs P Q m -> forall l, (exists d, snd (m l) = l ++ d /\ forall r, In (Req r) d -> P r)
                          /\ (forall a, fst (m l) = Ok a -> Q a).
Proof. intros H l; destruct (H l) as (d & E & Hd & Ha); eauto. Qed.

Lemma runs_invoke_of P server fuel cfg a auth :
  get_auth_header cfg = inr auth ->
  runs P always (search_body server fuel (cfg_get cfg "gong_base_url" (JStr default_base_url))
                   (request_headers auth) (opt_default "" (q a)) (format_datetime (from_date a))
                   (format_datetime (to_date a)) (opt_default 10 (limit a)) (workspace_id a)) ->
  runs P always (invoke server fuel cfg a).
Proof.
  intros Hauth Hb; unfold invoke; cbv zeta; rewrite Hauth.
  apply runs_try_catch; [exact Hb | intros e; apply runs_handler].
Qed.

Lemma runs_slice_zero P v :
  runs P (fun kept => kept = JArr [] \/ kept = JStr "") (py_slice_to v 0).
Proof.
  unfold py_slice_to; destruct v; try apply runs_raise; apply runs_ret;
    [right; unfold str_slice_to; destruct s; reflexivity | left; reflexivity].
Qed.

(** with [limit = 0] the [try] block sends no request but the search *)
Lemma runs_search_body_zero P server fuel base hdrs query f t ws :
  P (Post (py_str base +++ "/v2/calls/search") (search_payload query f t 0 ws) hdrs) ->
  runs P always (search_body server fuel base hdrs query f t 0 ws).
Proof.
  intros HP; unfold search_body; cbv zeta.
  apply runs_bind_T; [apply runs_request_with_retries; exact HP|]; intros resp.
  apply runs_bind_T; [runs_auto|]; intros u.
  apply runs_bind_T; [runs_auto|]; intros data.
  apply runs_bind_T; [runs_auto|]; intros calls0.
  apply runs_bind_T; [runs_auto|]; intros records.
  apply runs_bind_T; [runs_auto|]; intros cursor.
  apply runs_bind_T.
  { apply (runs_weaken P P (fun v => v = calls0) always); [auto | intros; exact I |].
    apply runs_paginate_nonpos; lia. }
  intros calls.
  apply (runs_bind P (fun kept => kept = JArr [] \/ kept = JStr "")); [apply runs_slice_zero|].
  intros kept Hk.
  apply (runs_bind P (fun cs => cs = [])); [destruct Hk as [-> | ->]; apply runs_ret; reflexivity|].
  intros cs ->; simpl; runs_auto.
Qed.

(** *** Rate-limit handling and fetch failures *)

Definition is_req (e : event) : bool := match e with Req _ => true | Sleep _ => false end.

Lemma handle_rate_limit_cases r l :
  handle_rate_limit r l = (Ok false, l)
  \/ (exists s, 0 <= s /\ handle_rate_limit r l = (Ok true, l ++ [Sleep s]))
  \/ (exists e, handle_rate_limit r l = (Exn e, l)).
Proof.
  unfold handle_rate_limit, retry_after_seconds, bind, sleep, ret, raise.
  destruct (status_code r =? 429); [|left; reflexivity].
  destruct (header_int (retry_after r)) as [z|]; [|right; right; eauto].
  destruct (z <? 0) eqn:E; [right; right; eauto|].
  right; left; exists z; split; [apply Z.ltb_ge in E; lia | reflexivity].
Qed.

Lemma retry_loop_log server k req resp l :
  exists d, snd (retry_loop server k req resp l) = l ++ d
    /\ Nat.le (length (filter is_req d)) k /\ Nat.le (length (sleeps d)) (S k)
    /\ Forall (fun e => e = Req req \/ exists s, e = Sleep s /\ 0 <= s) d.
Proof.
  revert resp l; induction k as [|k IH]; intros resp l; cbn [retry_loop]; unfold bind at 1;
    destruct (handle_rate_limit_cases resp l) as [E|[(s & Hs & E)|(e & E)]]; rewrite E.
  - exists []; rewrite app_nil_r; simpl; repeat split; auto; lia.
  - exists [Sleep s]; simpl; repeat split; try lia; constructor; [right; eauto | constructor].
  - exists []; rewrite app_nil_r; simpl; repeat split; auto; lia.
  - exists []; rewrite app_nil_r; simpl; repeat split; auto; lia.
  - rewrite bind_http.
    destruct (IH (server (l ++ [Sleep s]) req) ((l ++ [Sleep s]) ++ [Req req]))
      as (d & Ed & Hr & Hs' & Hf).
    exists ([Sleep s; Req req] ++ d); rewrite Ed, <- !app_assoc; simpl.
    repeat split; [lia | lia |].
    constructor; [right; eauto|]; constructor; [left; reflexivity | exact Hf].
  - exists []; rewrite app_nil_r; simpl; repeat split; auto; lia.
Qed.

Lemma request_with_retries_exn server req l e l1 :
  handle_rate_limit (server l req) (l ++ [Req req]) = (Exn e, l1) ->
  request_with_retries server req l = (Exn e, l1).
Proof. intros H; unfold request_with_retries, max_retries; rewrite bind_http; cbn [retry_loop]; unfold bind at 1; now rewrite H. Qed.

Lemma request_with_retries_other server req l :
  status_code (server l req) <> 429 ->
  request_with_retries server req l = (Ok (server l req), l ++ [Req req]).
Proof. intros H; unfold request_with_retries; rewrite bind_http; now apply retry_loop_other. Qed.

Lemma handle_rate_limit_bad_header r l :
  status_code r = 429 -> header_int (retry_after r) = None ->
  handle_rate_limit r l
  = (Exn (ValueError (int_error (opt_default "" (retry_after r)))), l).
Proof.
  intros H1 H2; unfold handle_rate_limit, retry_after_seconds.
  rewrite H1, H2; reflexivity.
Qed.

Lemma handle_rate_limit_negative r s l :
  status_code r = 429 -> header_int (retry_after r) = Some s -> s < 0 ->
  handle_rate_limit r l = (Exn (ValueError "sleep length must be non-negative"), l).
Proof.
  intros H1 H2 H3; unfold handle_rate_limit, retry_after_seconds, bind, ret, sleep.
  rewrite H1, H2; simpl; destruct (s <? 0) eqn:E; [reflexivity | apply Z.ltb_ge in E; lia].
Qed.


(** a segment list holding a non-dict makes the transcript assembly raise *)
Lemma segment_texts_raises segs l :
  Exists (fun seg => forall skv, seg <> JObj skv) segs -> exists e, segment_texts segs l = (Exn e, l).
Proof.
  induction segs as [|seg segs IH]; intros H; [inversion H|].
  cbn [segment_texts]; unfold bind at 1.
  destruct seg; try (eexists; reflexivity).
  assert (Ht : Exists (fun seg => forall skv, seg <> JObj skv) segs).
  { inversion H as [? ? Hs|]; subst; [exfalso; exact (Hs kvs eq_refl) | assumption]. }
  destruct (IH Ht) as (e & He).
  unfold dget at 1; destruct (assoc "speakerName" kvs); unfold ret at 1;
    unfold bind at 1, dget at 1; destruct (assoc "text" kvs); unfold ret at 1;
    rewrite (bind_exn _ _ _ _ _ He); eauto.
Qed.

(** *** Integer parsing *)




















(** *** Records, source items and pagination *)

(** a computation that neither reads nor writes the log *)
Definition log_free {A} (m : M A) : Prop := exists o, forall l, m l = (o, l).

Lemma log_free_ret {A} (a : A) : log_free (ret a).
Proof. exists (Ok a); reflexivity. Qed.

Lemma log_free_raise {A} e : log_free (@raise A e).
Proof. exists (Exn e); reflexivity. Qed.

Lemma log_free_bind {A B} (m : M A) (k : A -> M B) :
  log_free m -> (forall a, log_free (k a)) -> log_free (bind m k).
Proof.
  intros (o & Ho) Hk; destruct o as [a| e|].
  - destruct (Hk a) as (o' & Ho'); exists o'; intros l; unfold bind; rewrite Ho, Ho'; reflexivity.
  - exists (Exn e); intros l; unfold bind; rewrite Ho; reflexivity.
  - exists NoFuel; intros l; unfold bind; rewrite Ho; reflexivity.
Qed.

Lemma log_free_det {A} (m : M A) l1 l2 a1 a2 l1' l2' :
  log_free m -> m l1 = (Ok a1, l1') -> m l2 = (Ok a2, l2') -> a1 = a2.
Proof. intros (o & Ho); rewrite !Ho; congruence. Qed.

Lemma log_free_dget d k def : log_free (dget d k def).
Proof. unfold dget; destruct d; try apply log_free_raise; destruct assoc; apply log_free_ret. Qed.

Lemma log_free_call_ui_url b cid : log_free (call_ui_url b cid).
Proof.
  unfold call_ui_url; apply log_free_bind; [|intros; apply log_free_ret].
  unfold py_replace; destruct b; try apply log_free_raise; apply log_free_ret.
Qed.

(** a record and a source item that agree on [title] and [url] *)
Definition same_title_url (r s : json) : Prop :=
  field "title" r = field "title" s /\ field "url" r = field "url" s.

Ltac unbind H x Hx := apply bind_ok_inv in H; destruct H as (x & ? & Hx & H).

Lemma make_result_source_agree b call cid t l r l1 l2 s l3 :
  make_result b call cid t l = (Ok r, l1) -> make_source b call cid l2 = (Ok s, l3) ->
  same_title_url r s.
Proof.
  unfold make_result, make_source; intros H1 H2.
  unbind H1 title Ht; unbind H1 date Hd; unbind H1 dur Hdu; unbind H1 names Hn;
    unbind H1 url Hu; cbv zeta in H1; unbind H1 hc Hc.
  unbind H2 title' Ht'; unbind H2 url' Hu'; unbind H2 start Hs; unbind H2 dur' Hdu';
    unbind H2 names' Hn'; unbind H2 joined Hj; injection H2 as <- _.
  rewrite <- (log_free_det _ _ _ _ _ _ _ (log_free_dget _ _ _) Ht Ht') in *.
  rewrite <- (log_free_det _ _ _ _ _ _ _ (log_free_call_ui_url _ _) Hu Hu') in *.
  destruct hc.
  - unbind H1 content Hco; unbind H1 ws Hws; unbind H1 nm Hnm; injection H1 as <- _.
    split; reflexivity.
  - injection H1 as <- _; split; reflexivity.
Qed.

Lemma process_calls_aligned server b h cs l rs ss l1 :
  process_calls server b h cs l = (Ok (rs, ss), l1) -> Forall2 same_title_url rs ss.
Proof.
  revert l rs ss; induction cs as [|c cs IH]; intros l rs ss H; cbn [process_calls] in H.
  - injection H as <- <- <-; constructor.
  - inv_bind H; inv_bind H; injection H as <- <- <-.
    destruct a as [r s], a0 as [rs' ss']; simpl; constructor; [|eapply IH; eauto].
    unfold process_call in Ha; do 2 inv_bind Ha; unbind Ha r' Hr; unbind Ha s' Hs.
    injection Ha as <- <-; eapply make_result_source_agree; eauto.
Qed.

(** the id a call record carries: [call.get("id")] of a dict call *)
Definition call_id_of (call : json) : json :=
  match call with JObj kvs => opt_default JNull (assoc "id" kvs) | _ => JNull end.

Lemma dget_ok_dict d k def l v l1 :
  dget d k def l = (Ok v, l1) -> exists kvs, d = JObj kvs /\ v = opt_default def (assoc k kvs) /\ l1 = l.
Proof.
  unfold dget; intros H; destruct d; try (cbv [raise] in H; discriminate H).
  destruct (assoc k kvs) eqn:E; injection H as <- <-; exists kvs; rewrite E; repeat split.
Qed.


Lemma bind_ret_l {A B} (a : A) (k : A -> M B) l : bind (ret a) k l = k a l.
Proof. reflexivity. Qed.


(** [py_join] succeeds only on a list of str *)
Lemma py_join_ok sep xs l s l1 :
  py_join sep xs l = (Ok s, l1) -> Forall (fun v => exists t, v = JStr t) xs.
Proof.
  unfold py_join; intros H; apply bind_ok_inv in H; destruct H as (ss & l2 & Hss & _).
  revert l ss l2 Hss.
  induction xs as [|v xs IH]; intros l0 ss0 l3 H; [constructor|].
  cbn [mapM] in H; unbind H y Hy; unbind H ys Hys.
  constructor; [destruct v; try (cbv [raise] in Hy; discriminate Hy); eauto | eapply IH; eauto].
Qed.

(** the names [party.get("name", "Unknown")] of a list of parties: every
    party is a dict *)
Lemma party_names_ok kvs ps l names l1 :
  assoc "parties" kvs = Some (JArr ps) ->
  party_names (JObj kvs) l = (Ok names, l1) ->
  Forall2 (fun p n => exists pk, p = JObj pk /\ n = opt_default (JStr "Unknown") (assoc "name" pk)) ps names.
Proof.
  intros Hp H; unfold party_names in H; unbind H parties Hps; unbind H ps' Hi.
  destruct (dget_ok_dict _ _ _ _ _ _ Hps) as (kvs' & E & -> & ->); injection E as <-.
  rewrite Hp in Hi; cbv [opt_default py_iter ret] in Hi; injection Hi as <- <-.
  clear Hps Hp; generalize dependent l; revert names l1.
  induction ps as [|p ps IH]; intros names l1 l H; cbn [mapM] in H.
  - injection H as <- _; constructor.
  - unbind H n Hn; unbind H ns Hns; injection H as <- _.
    destruct (dget_ok_dict _ _ _ _ _ _ Hn) as (pk & -> & -> & _).
    constructor; [eauto | eapply IH; eauto].
Qed.

(** a party that makes [", ".join(parties)] or [party.get] raise *)
Definition bad_party (p : json) : Prop :=
  (forall pk, p <> JObj pk)
  \/ (exists pk v, p = JObj pk /\ assoc "name" pk = Some v /\ forall t, v <> JStr t).

Lemma process_call_bad_party server b h kvs ps l r l1 :
  assoc "parties" kvs = Some (JArr ps) -> Exists bad_party ps ->
  process_call server b h (JObj kvs) l <> (Ok r, l1).
Proof.
  intros Hp Hb H; unfold process_call in H.
  unbind H cid Hcid; unbind H t Ht; unbind H res Hr; unbind H src Hs.
  unfold make_source in Hs; unbind Hs title Htt; unbind Hs url Hu; unbind Hs st Hst;
    unbind Hs dur Hd; unbind Hs names Hn; unbind Hs joined Hj.
  pose proof (party_names_ok _ _ _ _ _ Hp Hn) as HF.
  pose proof (py_join_ok _ _ _ _ _ Hj) as HS.
  clear - HF HS Hb; induction HF as [|p n ps ns (pk & -> & ->) HF IH].
  - inversion Hb.
  - inversion HS as [|? ? (t & Ht) HS']; subst.
    inversion Hb as [? ? Hbad|? ? Hrest]; subst; [|exact (IH Hrest HS')].
    destruct Hbad as [Hnd | (pk' & v & E & Hv & Hnot)]; [exact (Hnd pk eq_refl)|].
    injection E as <-; rewrite Hv in Ht; exact (Hnot t Ht).
Qed.


(** the calls a page answered by [resp] adds to the list:
    [resp.json().get("calls", [])], iterated by [extend] *)
Definition page_items (resp : response) : list json :=
  match (data <- response_json resp ;; page <- dget data "calls" (JArr []) ;; py_iter page) [] with
  | (Ok ys, _) => ys
  | _ => []
  end.

(** the calls of the pages fetched in the events [d] that follow the log
    [pre]: every request not answered by a 429 is a page *)
Fixpoint fetched_calls (server : list event -> request -> response) (pre d : list event)
    : list json :=
  match d with
  | [] => []
  | Req r :: d' =>
      (if status_code (server pre r) =? 429 then [] else page_items (server pre r))
      ++ fetched_calls server (pre ++ [Req r]) d'
  | Sleep s :: d' => fetched_calls server (pre ++ [Sleep s]) d'
  end.

Lemma log_free_log {A} (m : M A) l a l' : log_free m -> m l = (Ok a, l') -> l' = l.
Proof. intros (o & Ho); rewrite Ho; congruence. Qed.

Lemma log_free_response_json r : log_free (response_json r).
Proof. unfold response_json; destruct (body r); [apply log_free_ret | apply log_free_raise]. Qed.

Lemma log_free_py_iter v : log_free (py_iter v).
Proof. unfold py_iter; destruct v; try apply log_free_raise; apply log_free_ret. Qed.

Lemma log_free_raise_for_status r url : log_free (raise_for_status r url).
Proof.
  unfold raise_for_status; destruct (_ && _); [apply log_free_raise|].
  destruct (_ && _); [apply log_free_raise | apply log_free_ret].
Qed.

Lemma page_items_ok resp l1 data l2 page l3 ys l4 :
  response_json resp l1 = (Ok data, l2) -> dget data "calls" (JArr []) l2 = (Ok page, l3) ->
  py_iter page l3 = (Ok ys, l4) -> page_items resp = ys.
Proof.
  intros H1 H2 H3; unfold page_items.
  destruct (log_free_response_json resp) as (o1 & E1); rewrite E1 in H1; injection H1 as -> ->.
  unfold bind at 1; rewrite E1; cbv beta iota.
  destruct (log_free_dget data "calls" (JArr [])) as (o2 & E2); rewrite E2 in H2; injection H2 as -> ->.
  unfold bind at 1; rewrite E2; cbv beta iota.
  destruct (log_free_py_iter page) as (o3 & E3); rewrite E3 in H3; injection H3 as -> ->.
  rewrite E3; reflexivity.
Qed.

Lemma handle_rate_limit_ok r l b l1 :
  handle_rate_limit r l = (Ok b, l1) ->
  (b = false /\ status_code r <> 429 /\ l1 = l)
  \/ (b = true /\ status_code r = 429 /\ exists s, l1 = l ++ [Sleep s]).
Proof.
  unfold handle_rate_limit, retry_after_seconds, bind, sleep, ret, raise.
  destruct (status_code r =? 429) eqn:E.
  - apply Z.eqb_eq in E; destruct (header_int (retry_after r)) as [z|]; [|discriminate].
    destruct (z <? 0); [discriminate|]; intros H; injection H as <- <-; right; eauto.
  - apply Z.eqb_neq in E; intros H; injection H as <- <-; left; auto.
Qed.
(** *** Examples for the properties below *)

(** the pair of lists a run of the per-call loop returned, empty otherwise *)
Definition calls_result (r : outcome (list json * list json) * list event) : list json * list json :=
  match fst r with Ok p => p | _ => ([], []) end.

Definition bearer_auth : headers := [("Authorization", "Bearer tok")].

(** a call with no [id] and one party whose [name] is a number *)
Definition odd_call : json := JObj [("title", JStr "Sync"); ("parties", JArr [JObj [("name", JNum 3)]])].

(** a call with no [id] and no [parties] *)
Definition anon_call : json := JObj [("title", JStr "Sync")].


(** a search endpoint that answers its first request with a 429 and
    [Retry-After: 0], and every later one with the page of [page_server] *)
Definition flaky_page_server (l : list event) (r : request) : response :=
  match l with
  | [] => mk_response 429 "Too Many Requests" (Some "0") None
  | _ => page_server l r
  end.
(** ** Properties of the code beyond the claims *)

(** X6: Every request [invoke] sends carries the configured authorisation
    header followed by [Content-Type: application/json], and goes to the
    configured base URL: the search endpoint (with the search payload, or
    that payload with a pagination cursor) or a call's transcript
    endpoint. *)
Theorem invoke_sends_only_gong_requests (server : list event -> request -> response) fuel cfg a auth :
  get_auth_header cfg = inr auth ->
  forall l, exists d, snd (invoke server fuel cfg a l) = l ++ d
    /\ forall r, In (Req r) d ->
         r = Post (search_url_of cfg) (search_payload_of a) (request_headers auth)
         \/ (exists c, r = Post (search_url_of cfg) (with_cursor (search_payload_of a) c)
                           (request_headers auth))
         \/ (exists id, r = Get (base_url_of cfg +++ "/v2/calls/" +++ id +++ "/transcript")
                          (request_headers auth)).
Proof.
  intros Hauth l.
  refine (proj1 (runs_and_log _ _ _ (runs_invoke_of _ server fuel cfg a auth Hauth
            (runs_search_body server _ _ _ _ _ _ _ _ _ _ _ _)) l)).
  - left; reflexivity.
  - intros c; right; left; exists c; reflexivity.
  - intros id; right; right; exists (py_str id); reflexivity.
Qed.

(** X7: With [limit = 0] the envelope [invoke] returns has an empty output,
    and the only request sent is the search request (with its rate-limit
    retries): the pagination loop does not run and no transcript is
    fetched. *)
Theorem zero_limit_sends_only_search (server : list event -> request -> response) fuel cfg a auth l env l' :
  get_auth_header cfg = inr auth -> opt_default 10 (limit a) = 0 ->
  invoke server fuel cfg a l = (Ok env, l') ->
  output_records env = []
  /\ exists d, l' = l ++ d
       /\ forall r, In (Req r) d -> r = Post (search_url_of cfg) (search_payload_of a) (request_headers auth).
Proof.
  intros Hauth Hlim H; split.
  - destruct (invoke_ok_cases _ _ _ _ _ _ _ H)
      as [(msg & -> & _) | (auth' & cs & rs & ss & l1 & _ & -> & Hlen & Hp)]; [reflexivity|].
    rewrite Hlim in Hlen; specialize (Hlen ltac:(lia)).
    destruct cs; [|simpl in Hlen; lia].
    pose proof (process_calls_length _ _ _ _ _ _ _ _ Hp) as HL.
    destruct rs; [reflexivity | discriminate].
  - assert (R : runs (fun r => r = Post (search_url_of cfg) (search_payload_of a) (request_headers auth))
                  always (invoke server fuel cfg a)).
    { apply (runs_invoke_of _ _ _ _ _ _ Hauth); rewrite Hlim.
      apply runs_search_body_zero; unfold search_payload_of; rewrite Hlim; reflexivity. }
    destruct (R l) as (d & E & Hd & _); rewrite H in E; exists d; auto.
Qed.

(** X1: A search request or a transcript request is sent at most 4 times
    (the first time and at most 3 retries), always identical, with at most
    4 sleeps in between, none of them negative; nothing else is logged. *)
Theorem request_with_retries_bounded (server : list event -> request -> response) req l :
  exists d, snd (request_with_retries server req l) = l ++ d
    /\ hd_error d = Some (Req req)
    /\ Nat.le (length (filter is_req d)) 4
    /\ Nat.le (length (sleeps d)) 4
    /\ Forall (fun e => e = Req req \/ exists s, e = Sleep s /\ 0 <= s) d.
Proof.
  unfold request_with_retries; rewrite bind_http.
  destruct (retry_loop_log server max_retries req (server l req) (l ++ [Req req]))
    as (d & Ed & Hr & Hs & Hf).
  exists (Req req :: d); rewrite Ed, <- app_assoc; simpl.
  unfold max_retries in *; repeat split; [lia | lia |].
  constructor; [left; reflexivity | exact Hf].
Qed.


(** X3: A search answered with an error status other than 429 (400 to 599) is
    not retried: [raise_for_status] raises an [HTTPError] at once and the
    invocation returns [{"output": [], "error": "HTTP error occurred: ..."}]
    after that one request. *)
Theorem search_error_status_envelope (server : list event -> request -> response) fuel cfg a auth l :
  get_auth_header cfg = inr auth ->
  let req := Post (search_url_of cfg) (search_payload_of a) (request_headers auth) in
  let st := status_code (server l req) in
  400 <= st < 600 -> st <> 429 ->
  exists msg, invoke server fuel cfg a l = (Ok (error_env ("HTTP error occurred: " +++ msg)), l ++ [Req req]).
Proof.
  intros Hauth req st Hst H429.
  unfold invoke; cbv zeta; rewrite Hauth; unfold try_catch, search_body; cbv zeta.
  change (py_str (cfg_get cfg "gong_base_url" (JStr default_base_url)) +++ "/v2/calls/search")
    with (search_url_of cfg).
  change (auth ++ [("Content-Type", "application/json")]) with (request_headers auth).
  change (search_payload (opt_default "" (q a)) (format_datetime (from_date a))
            (format_datetime (to_date a)) (opt_default 10 (limit a)) (workspace_id a))
    with (search_payload_of a).
  fold req; rewrite (bind_ok _ _ _ _ _ (request_with_retries_other server req l H429)).
  unfold bind at 1, raise_for_status; fold st.
  destruct (400 <=? st) eqn:A1; destruct (st <? 500) eqn:A2;
    destruct (500 <=? st) eqn:A3; destruct (st <? 600) eqn:A4;
    try (eexists; reflexivity); exfalso; rewrite ?Z.leb_le, ?Z.leb_gt, ?Z.ltb_lt, ?Z.ltb_ge in *; lia.
Qed.

(** X4: A transcript fetch raises (which the per-call loop does not catch)
    when the first answer is a 429 whose [Retry-After] is not read by
    [int()] or is a negative integer, or when a 200 answer has a body that
    is not JSON, is not a JSON object, or has a transcript list holding a
    segment that is not an object. *)
Theorem transcript_fetch_raises (server : list event -> request -> response) url hdrs l :
  let req := Get url hdrs in
  let resp := server l req in
  (status_code resp = 429
     /\ (header_int (retry_after resp) = None \/ exists s, header_int (retry_after resp) = Some s /\ s < 0))
  \/ (status_code resp = 200 /\ body resp = None)
  \/ (status_code resp = 200 /\ exists v, body resp = Some v /\ forall kvs, v <> JObj kvs)
  \/ (status_code resp = 200 /\ exists kvs segs, body resp = Some (JObj kvs)
        /\ assoc "transcript" kvs = Some (JArr segs)
        /\ Exists (fun seg => forall skv, seg <> JObj skv) segs) ->
  exists e, fetch_transcript server url hdrs l = (Exn e, l ++ [Req req]).
Proof.
  intros req resp H; unfold fetch_transcript.
  destruct H as [(H429 & [Hh | (s & Hh & Hs)]) | H].
  - eexists; rewrite (bind_exn _ _ _ _ _
      (request_with_retries_exn _ _ _ _ _ (handle_rate_limit_bad_header _ _ H429 Hh))); reflexivity.
  - eexists; rewrite (bind_exn _ _ _ _ _
      (request_with_retries_exn _ _ _ _ _ (handle_rate_limit_negative _ _ _ H429 Hh Hs))); reflexivity.
  - assert (H200 : status_code resp = 200) by (destruct H as [[H _]|[[H _]|[H _]]]; exact H).
    rewrite (bind_ok _ _ _ _ _ (request_with_retries_other server req l ltac:(fold resp; lia))).
    fold resp; rewrite H200; change (200 =? 200) with true; cbv iota beta; unfold bind at 1, response_json.
    destruct H as [[_ Hb]|[[_ (v & Hb & Hv)]|[_ (kvs & segs & Hb & Ht & Hs)]]]; rewrite Hb.
    + eexists; reflexivity.
    + unfold ret at 1, bind at 1, dget at 1; destruct v; try (eexists; reflexivity).
      exfalso; exact (Hv kvs eq_refl).
    + destruct (segment_texts_raises segs (l ++ [Req req]) Hs) as (e & He).
      cbv [bind ret dget py_iter]; rewrite Ht, He; eauto.
Qed.


(** X10: Per-call records line up with the calls: the i-th record of the
    per-call loop carries as [callId] the [id] of the i-th call ([None]
    when the call has no [id]), and the loop succeeds only if every call
    is a dict. *)
Theorem records_carry_call_ids server b h cs l rs ss l1 :
  process_calls server b h cs l = (Ok (rs, ss), l1) ->
  Forall2 (fun call r => (exists kvs, call = JObj kvs) /\ field "callId" r = Some (call_id_of call)) cs rs.
Proof.
  revert l rs ss; induction cs as [|c cs IH]; intros l rs ss H; cbn [process_calls] in H.
  - injection H as <- <- <-; constructor.
  - inv_bind H; inv_bind H; injection H as <- <- <-.
    destruct a as [r s], a0 as [rs' ss']; simpl; constructor; [|eapply IH; eauto].
    unfold process_call in Ha; unbind Ha cid Hcid; unbind Ha t Ht; unbind Ha r' Hr; unbind Ha s' Hs.
    injection Ha as <- <-.
    destruct (dget_ok_dict _ _ _ _ _ _ Hcid) as (kvs & -> & -> & _); split; [eauto|].
    destruct (make_result_fields _ _ _ _ _ _ _ Hr) as (? & ? & ? & ? & ? & ? & -> & _).
    reflexivity.
Qed.

(** X8: Pagination only appends: the list it returns is the list of calls it
    was given followed by the calls of the pages it fetched, in order: the
    events it adds to the log are its requests and sleeps, and every request
    it made that was not answered by a 429 contributes the [calls] of its
    answer. *)
Theorem pagination_only_appends server fuel url payload hdrs lim cursor xs l v l' :
  paginate server fuel url payload hdrs lim cursor (JArr xs) l = (Ok v, l') ->
  exists d, l' = l ++ d /\ v = JArr (xs ++ fetched_calls server l d).
Proof.
  revert cursor xs l; induction fuel as [|fuel IH]; intros cursor xs l H; cbn [paginate] in H;
    (destruct (negb (truthy cursor));
       [injection H as <- <-; exists []; rewrite !app_nil_r; split; reflexivity|]);
    unfold py_len at 1 in H; rewrite bind_ret_l in H;
    (destruct (negb (Z.of_nat (length xs) <? lim));
       [injection H as <- <-; exists []; rewrite !app_nil_r; split; reflexivity|]).
  - discriminate.
  - rewrite bind_http in H; unbind H lim' Hl.
    set (req := Post url (with_cursor payload cursor) hdrs) in *.
    destruct (handle_rate_limit_ok _ _ _ _ Hl) as [(-> & H429 & ->) | (-> & H429 & s & ->)].
    + apply bind_ok_inv in H; destruct H as (u & l1 & Hu & H).
      apply bind_ok_inv in H; destruct H as (data & l2 & Hd & H).
      apply bind_ok_inv in H; destruct H as (page & l3 & Hp & H).
      apply bind_ok_inv in H; destruct H as (acc & l4 & Ha & H).
      apply bind_ok_inv in H; destruct H as (recs & l5 & Hr & H).
      apply bind_ok_inv in H; destruct H as (cur & l6 & Hc & H).
      unfold py_extend in Ha; apply bind_ok_inv in Ha; destruct Ha as (ys & l7 & Hy & Ha).
      injection Ha as <- <-.
      pose proof (page_items_ok _ _ _ _ _ _ _ _ Hd Hp Hy) as Hpage.
      pose proof (log_free_log _ _ _ _ (log_free_raise_for_status _ _) Hu) as ->.
      pose proof (log_free_log _ _ _ _ (log_free_response_json _) Hd) as ->.
      pose proof (log_free_log _ _ _ _ (log_free_dget _ _ _) Hp) as ->.
      pose proof (log_free_log _ _ _ _ (log_free_py_iter _) Hy) as ->.
      pose proof (log_free_log _ _ _ _ (log_free_dget _ _ _) Hr) as ->.
      pose proof (log_free_log _ _ _ _ (log_free_dget _ _ _) Hc) as ->.
      destruct (IH _ _ _ H) as (d & -> & ->).
      exists (Req req :: d); split; [rewrite <- app_assoc; reflexivity|].
      cbn [fetched_calls]; apply Z.eqb_neq in H429; rewrite H429, Hpage, app_assoc; reflexivity.
    + destruct (IH _ _ _ H) as (d & -> & ->).
      exists (Req req :: Sleep s :: d); split; [rewrite <- !app_assoc; reflexivity|].
      cbn [fetched_calls]; rewrite H429; reflexivity.
Qed.

(** X11: In every envelope returned, the [output] records and the [sources]
    items correspond one to one, in order, each pair having the same
    [title] and the same [url]. *)
Theorem records_match_source_items (server : list event -> request -> response) fuel cfg a l env l' :
  invoke server fuel cfg a l = (Ok env, l') ->
  Forall2 same_title_url (output_records env) (source_items env).
Proof.
  intros H; destruct (invoke_ok_cases _ _ _ _ _ _ _ H)
    as [(msg & -> & _) | (auth & cs & rs & ss & l1 & _ & -> & _ & Hp)].
  - constructor.
  - exact (process_calls_aligned _ _ _ _ _ _ _ _ Hp).
Qed.

(** X14: A date that [_format_datetime] cannot read (it returns [None]) has the
    same effect as no date at all: the invocation runs exactly as if that
    date had been omitted, so the search is not restricted by it. *)
Theorem unreadable_date_ignored (server : list event -> request -> response) fuel cfg a l :
  (format_datetime (from_date a) = None ->
     invoke server fuel cfg a l
     = invoke server fuel cfg (mk_args (q a) None (to_date a) (limit a) (workspace_id a)) l)
  /\ (format_datetime (to_date a) = None ->
     invoke server fuel cfg a l
     = invoke server fuel cfg (mk_args (q a) (from_date a) None (limit a) (workspace_id a)) l).
Proof. split; intros H; unfold invoke; rewrite H; reflexivity. Qed.

(** X9: A negative [limit] stops pagination before it starts and
    [all_calls[:limit]] drops the last [-limit] calls: when the first
    search response is accepted and lists the calls [xs], a successful
    invocation returns [max 0 (len xs + limit)] records (or an error
    envelope, if a later step raises). *)
Theorem negative_limit_drops_tail (server : list event -> request -> response) fuel cfg a auth l env l' kvs xs :
  get_auth_header cfg = inr auth ->
  opt_default 10 (limit a) < 0 ->
  let req := Post (search_url_of cfg) (search_payload_of a) (request_headers auth) in
  let resp := server l req in
  status_code resp <> 429 -> ~ (400 <= status_code resp < 600) ->
  body resp = Some (JObj kvs) -> assoc "calls" kvs = Some (JArr xs) ->
  invoke server fuel cfg a l = (Ok env, l') ->
  (exists msg, env = error_env msg)
  \/ length (output_records env) = Z.to_nat (Z.of_nat (length xs) + opt_default 10 (limit a)).
Proof.
  intros Hauth Hlim req resp H429 Hst Hb Hc H.
  unfold invoke in H; cbv zeta in H; rewrite Hauth in H; unfold try_catch in H.
  change (py_str (cfg_get cfg "gong_base_url" (JStr default_base_url)) +++ "/v2/calls/search")
    with (search_url_of cfg) in H.
  change (auth ++ [("Content-Type", "application/json")]) with (request_headers auth) in H.
  destruct (search_body server fuel (cfg_get cfg "gong_base_url" (JStr default_base_url))
              (request_headers auth) (opt_default "" (q a)) (format_datetime (from_date a))
              (format_datetime (to_date a)) (opt_default 10 (limit a)) (workspace_id a) l)
    as [[v|e|] l2] eqn:Hs.
  - injection H as <- _; right.
    unfold search_body in Hs; cbv zeta in Hs.
    change (py_str (cfg_get cfg "gong_base_url" (JStr default_base_url)) +++ "/v2/calls/search")
      with (search_url_of cfg) in Hs.
    change (search_payload (opt_default "" (q a)) (format_datetime (from_date a))
              (format_datetime (to_date a)) (opt_default 10 (limit a)) (workspace_id a))
      with (search_payload_of a) in Hs.
    fold req in Hs; rewrite (bind_ok _ _ _ _ _ (request_with_retries_other server req l H429)) in Hs.
    unbind Hs u Hu; unbind Hs data Hd; fold resp in Hd.
    unfold response_json in Hd; rewrite Hb in Hd; injection Hd as <- _.
    unbind Hs calls Hcalls; destruct (dget_ok_dict _ _ _ _ _ _ Hcalls) as (kvs' & E & -> & _).
    injection E as <-; rewrite Hc in Hs; change (opt_default (JArr []) (Some (JArr xs))) with (JArr xs) in Hs.
    unbind Hs recs Hr; apply bind_ok_inv in Hs; destruct Hs as (cur & lc & Hcur & Hs).
    apply bind_ok_inv in Hs; destruct Hs as (all' & lp & Hpag & Hs).
    assert (Eall : all' = JArr xs).
    { apply (proj2 (runs_and_log _ _ _
               (runs_paginate_nonpos server (fun _ => True) fuel (search_url_of cfg)
                  (search_payload_of a) (request_headers auth) (opt_default 10 (limit a)) cur
                  (JArr xs) ltac:(lia)) lc)).
      rewrite Hpag; reflexivity. }
    subst all'.
    unbind Hs kept Hk; cbv [py_slice_to ret] in Hk; injection Hk as <- _.
    unbind Hs cs Hi; cbv [py_iter ret] in Hi; injection Hi as <- _.
    unbind Hs rs Hrs; injection Hs as <- _.
    destruct rs as [rs ss]; change (output_records (success_env _ (fst (rs, ss)) _)) with rs.
    rewrite (process_calls_length _ _ _ _ _ _ _ _ Hrs).
    unfold list_slice_to; destruct (0 <=? opt_default 10 (limit a)) eqn:E;
      [apply Z.leb_le in E; lia|].
    rewrite length_firstn; lia.
  - left; destruct e; cbv [handler ret] in H; injection H as <- _; eauto.
  - discriminate.
Qed.

(** X12: A call whose [parties] list holds a party that is not a dict, or a
    party whose [name] is not a str, makes the per-call loop raise (at
    [party.get] or at [", ".join]): the loop over the kept calls never
    completes, whatever the other calls and the server's answers. *)
Theorem bad_party_aborts_calls (server : list event -> request -> response) b h cs l kvs ps :
  In (JObj kvs) cs -> assoc "parties" kvs = Some (JArr ps) -> Exists bad_party ps ->
  forall rs ss l', process_calls server b h cs l <> (Ok (rs, ss), l').
Proof.
  intros Hin Hp Hb; revert l; induction cs as [|c cs IH]; intros l rs ss l' H; [destruct Hin|].
  cbn [process_calls] in H.
  apply bind_ok_inv in H; destruct H as (r & l1 & Hc & H).
  apply bind_ok_inv in H; destruct H as (acc & l2 & Hr & H).
  destruct Hin as [-> | Hin].
  - exact (process_call_bad_party _ _ _ _ _ _ _ _ Hp Hb Hc).
  - destruct acc as [rs' ss']; exact (IH Hin l1 rs' ss' l2 Hr).
Qed.

(** X13: A call without an [id] is processed with [call_id] [None]: its
    transcript is requested from [<base>/v2/calls/None/transcript], and
    that is the first request the call's step sends. *)
Theorem missing_id_fetches_none (server : list event -> request -> response) b h kvs :
  assoc "id" kvs = None ->
  starts_with (Get (py_str b +++ "/v2/calls/None/transcript") h) (process_call server b h (JObj kvs)).
Proof.
  intros Hid l; unfold process_call.
  assert (E : dget (JObj kvs) "id" JNull l = (Ok JNull, l)) by (unfold dget; rewrite Hid; reflexivity).
  rewrite (bind_ok _ _ _ _ _ E).
  apply starts_with_bind; [|intros; mono].
  unfold fetch_transcript; apply starts_with_bind; [|intros; mono].
  unfold request_with_retries; apply starts_with_http_bind; intros; mono.
Qed.

(** ** Instances of the properties *)

Lemma invoke_sends_only_gong_requests_witness :
  get_auth_header example_cfg = inr bearer_auth
  /\ exists d, snd (invoke (example_server (mk_response 404 "Not Found" None None)) 3 example_cfg example_args [])
               = [] ++ d
     /\ forall r, In (Req r) d ->
          r = Post (search_url_of example_cfg) (search_payload_of example_args) (request_headers bearer_auth)
          \/ (exists c, r = Post (search_url_of example_cfg)
                              (with_cursor (search_payload_of example_args) c) (request_headers bearer_auth))
          \/ (exists id, r = Get (base_url_of example_cfg +++ "/v2/calls/" +++ id +++ "/transcript")
                               (request_headers bearer_auth)).
Proof.
  split; [reflexivity|].
  exact (invoke_sends_only_gong_requests (example_server (mk_response 404 "Not Found" None None)) 3 example_cfg
           example_args bearer_auth eq_refl []).
Defined.

Lemma zero_limit_sends_only_search_witness :
  let a := mk_args (Some "pricing") None None (Some 0) None in
  let run := invoke (example_server (mk_response 404 "Not Found" None None)) 3 example_cfg a [] in
  output_records (result_of run) = []
  /\ exists d, snd run = [] ++ d
     /\ forall r, In (Req r) d -> r = Post (search_url_of example_cfg) (search_payload_of a) (request_headers bearer_auth).
Proof.
  intros a run.
  exact (zero_limit_sends_only_search (example_server (mk_response 404 "Not Found" None None)) 3 example_cfg a
           bearer_auth [] (result_of run) (snd run) eq_refl eq_refl ltac:(vm_compute; reflexivity)).
Defined.


Lemma search_error_status_envelope_witness :
  exists msg, invoke (constant_server (mk_response 404 "Not Found" None None)) 3 example_cfg example_args []
  = (Ok (error_env ("HTTP error occurred: " +++ msg)),
     [Req (Post (search_url_of example_cfg) (search_payload_of example_args) (request_headers bearer_auth))]).
Proof.
  exact (search_error_status_envelope (constant_server (mk_response 404 "Not Found" None None)) 3 example_cfg
           example_args bearer_auth [] eq_refl ltac:(cbn; lia) ltac:(cbn; discriminate)).
Defined.

Lemma transcript_fetch_raises_witness :
  (exists e, fetch_transcript (constant_server (mk_response 200 "OK" None None)) "u" [] []
             = (Exn e, [] ++ [Req (Get "u" [])]))
  /\ (exists e, fetch_transcript (limited_server (Some "1__0")) "u" [] []
                = (Exn e, [] ++ [Req (Get "u" [])])).
Proof.
  split.
  - exact (transcript_fetch_raises (constant_server (mk_response 200 "OK" None None)) "u" [] []
             (or_intror (or_introl (conj eq_refl eq_refl)))).
  - exact (transcript_fetch_raises (limited_server (Some "1__0")) "u" [] []
             (or_introl (conj eq_refl (or_introl eq_refl)))).
Defined.

Lemma records_carry_call_ids_witness :
  let run := process_calls (example_server (mk_response 404 "Not Found" None None)) (JStr default_base_url) []
               [example_call; anon_call] [] in
  Forall2 (fun call r => (exists kvs, call = JObj kvs) /\ field "callId" r = Some (call_id_of call))
    [example_call; anon_call] (fst (calls_result run)).
Proof.
  intros run.
  exact (records_carry_call_ids (example_server (mk_response 404 "Not Found" None None)) (JStr default_base_url) []
           [example_call; anon_call] [] (fst (calls_result run)) (snd (calls_result run)) (snd run)
           ltac:(vm_compute; reflexivity)).
Defined.

Lemma pagination_only_appends_witness :
  let run := paginate flaky_page_server 2 "u" example_payload [] 2 (JStr "abc") (JArr [JNum 0]) [] in
  (exists d, snd run = [] ++ d /\ result_of run = JArr ([JNum 0] ++ fetched_calls flaky_page_server [] d))
  /\ result_of run = JArr [JNum 0; JNum 1].
Proof.
  intros run; split.
  - exact (pagination_only_appends flaky_page_server 2 "u" example_payload [] 2 (JStr "abc") [JNum 0] []
             (result_of run) (snd run) ltac:(vm_compute; reflexivity)).
  - vm_compute; reflexivity.
Defined.

Lemma records_match_source_items_witness :
  let run := invoke (example_server (mk_response 404 "Not Found" None None)) 3 example_cfg example_args [] in
  Forall2 same_title_url (output_records (result_of run)) (source_items (result_of run)).
Proof.
  intros run.
  exact (records_match_source_items (example_server (mk_response 404 "Not Found" None None)) 3 example_cfg
           example_args [] (result_of run) (snd run) ltac:(vm_compute; reflexivity)).
Defined.

Lemma unreadable_date_ignored_witness :
  invoke (example_server (mk_response 404 "Not Found" None None)) 3 example_cfg
    (mk_args (Some "pricing") (Some "yesterday") (Some "2024-13-45") (Some 5) None) []
  = invoke (example_server (mk_response 404 "Not Found" None None)) 3 example_cfg
      (mk_args (Some "pricing") None (Some "2024-13-45") (Some 5) None) []
  /\ invoke (example_server (mk_response 404 "Not Found" None None)) 3 example_cfg
       (mk_args (Some "pricing") None (Some "2024-13-45") (Some 5) None) []
  = invoke (example_server (mk_response 404 "Not Found" None None)) 3 example_cfg
      (mk_args (Some "pricing") None None (Some 5) None) [].
Proof.
  split.
  - exact (proj1 (unreadable_date_ignored (example_server (mk_response 404 "Not Found" None None)) 3 example_cfg
                    (mk_args (Some "pricing") (Some "yesterday") (Some "2024-13-45") (Some 5) None) [])
                 ltac:(vm_compute; reflexivity)).
  - exact (proj2 (unreadable_date_ignored (example_server (mk_response 404 "Not Found" None None)) 3 example_cfg
                    (mk_args (Some "pricing") None (Some "2024-13-45") (Some 5) None) [])
                 ltac:(vm_compute; reflexivity)).
Defined.

Lemma negative_limit_drops_tail_witness :
  let a := mk_args (Some "pricing") None None (Some (-1)) None in
  let run := invoke (example_server (mk_response 404 "Not Found" None None)) 3 example_cfg a [] in
  (exists msg, result_of run = error_env msg)
  \/ length (output_records (result_of run)) = Z.to_nat (Z.of_nat (length [example_call]) + -1).
Proof.
  intros a run.
  exact (negative_limit_drops_tail (example_server (mk_response 404 "Not Found" None None)) 3 example_cfg a
           bearer_auth [] (result_of run) (snd run)
           [("calls", JArr [example_call]); ("records", JObj [])] [example_call]
           eq_refl eq_refl ltac:(cbn; discriminate) ltac:(cbn; lia) eq_refl eq_refl
           ltac:(vm_compute; reflexivity)).
Defined.

Lemma bad_party_aborts_calls_witness :
  let run := process_calls (example_server (mk_response 404 "Not Found" None None)) (JStr default_base_url) []
               [example_call; odd_call] [] in
  run <> (Ok (calls_result run), snd run).
Proof.
  intros run.
  refine (bad_party_aborts_calls (example_server (mk_response 404 "Not Found" None None)) (JStr default_base_url) []
           [example_call; odd_call] [] [("title", JStr "Sync"); ("parties", JArr [JObj [("name", JNum 3)]])]
           [JObj [("name", JNum 3)]]
           (or_intror (or_introl eq_refl)) eq_refl
           (Exists_cons_hd _ _ _ (or_intror (ex_intro _ [("name", JNum 3)] (ex_intro _ (JNum 3)
              (conj eq_refl (conj eq_refl (fun t (E : JNum 3 = JStr t) => ltac:(discriminate E))))))))
           (fst (calls_result run)) (snd (calls_result run)) (snd run)).
Defined.

Lemma missing_id_fetches_none_witness :
  starts_with (Get (py_str (JStr default_base_url) +++ "/v2/calls/None/transcript") [])
    (process_call (example_server (mk_response 404 "Not Found" None None)) (JStr default_base_url) [] anon_call).
Proof.
  exact (missing_id_fetches_none (example_server (mk_response 404 "Not Found" None None)) (JStr default_base_url) []
           [("title", JStr "Sync")] eq_refl).
Defined.

End GongSearchTool.
